(** * pic-od-vsc: clipboard image acquisition and upload result handling

    A shallow embedding of [src/clipboard.ts] and [src/index.ts].

    - JavaScript strings are sequences of UTF-16 code units, modelled as
      [list N]; the built-ins the extension calls on them ([trim], [split],
      [filter(Boolean)], [replace] with a global literal pattern) follow
      ECMAScript.
    - The file system is a finite map from paths to file sizes; the OS
      clipboard tools are an arbitrary transformer of that map which may
      fail, supplied by the environment.
    - Asynchronous code is sequential here ([await] at every call), so it
      is written in a state-and-exception monad over the world. *)

From Stdlib Require Import ZArith NArith List String Ascii Lia DecimalString.
From stdpp Require Import base option list gmap.

Local Open Scope N_scope.

(** ** JavaScript strings and the built-ins used by the extension *)

Module JS.

(** A string is its sequence of UTF-16 code units. *)
Abbreviation jsstring := (list N).

(** ASCII literals of the source text. *)
Definition lit (s : string) : jsstring :=
  map N_of_ascii (list_ascii_of_string s).
Global Arguments lit s%_string.

(** [ToBoolean] on a string: only the empty string is falsy. *)
Definition Boolean (s : jsstring) : bool :=
  match s with
  | [] => false
  | _ :: _ => true
  end.

(** [a || b] on strings. *)
Definition or_else (a b : jsstring) : jsstring :=
  if Boolean a then a else b.

Definition eqb (a b : jsstring) : bool := bool_decide (a = b).

(** White space and line terminators stripped by [String.prototype.trim]:
    TAB, LF, VT, FF, CR, SP, NBSP, the Unicode space separators, LS, PS
    and the byte order mark. *)
Definition is_trim_space (c : N) : bool :=
  ((9 <=? c) && (c <=? 13))
  || (c =? 32) || (c =? 160) || (c =? 5760)
  || ((8192 <=? c) && (c <=? 8202))
  || (c =? 8232) || (c =? 8233) || (c =? 8239) || (c =? 8287)
  || (c =? 12288) || (c =? 65279).

Fixpoint trim_start (s : jsstring) : jsstring :=
  match s with
  | [] => []
  | c :: s' => if is_trim_space c then trim_start s' else s
  end.

Definition trim_end (s : jsstring) : jsstring :=
  rev (trim_start (rev s)).

Definition trim (s : jsstring) : jsstring :=
  trim_end (trim_start s).

(** [s.split(sep)] for a one-unit separator: always at least one piece,
    and one more piece than there are separators. *)
Fixpoint split (sep : N) (s : jsstring) : list jsstring :=
  match s with
  | [] => [[]]
  | c :: s' =>
      if c =? sep then [] :: split sep s'
      else match split sep s' with
           | piece :: pieces => (c :: piece) :: pieces
           | [] => [[c]]
           end
  end.

Definition newline : N := 10.
Definition dollar : N := 36.
Definition ampersand : N := 38.
Definition apostrophe : N := 39.
Definition backtick : N := 96.

(** [GetSubstitution] of ECMAScript for a pattern without capture
    groups: in the replacement text, [$$] stands for a dollar sign,
    [$&] for the matched text, [$`] for the subject before the match
    and [$'] for the subject after it.  With no groups, [$1]..[$99] and
    [$<] are left as they are, like any other dollar sign. *)
Fixpoint GetSubstitution (matched before after template : jsstring)
  : jsstring :=
  match template with
  | [] => []
  | c :: rest =>
      if c =? dollar then
        match rest with
        | d :: rest' =>
            if d =? dollar then
              dollar :: GetSubstitution matched before after rest'
            else if d =? ampersand then
              matched ++ GetSubstitution matched before after rest'
            else if d =? backtick then
              before ++ GetSubstitution matched before after rest'
            else if d =? apostrophe then
              after ++ GetSubstitution matched before after rest'
            else
              dollar :: GetSubstitution matched before after rest
        | [] => [dollar]
        end
      else c :: GetSubstitution matched before after rest
  end.

Fixpoint starts_with (tok s : jsstring) : bool :=
  match tok, s with
  | [], _ => true
  | _ :: _, [] => false
  | a :: tok', b :: s' => (a =? b) && starts_with tok' s'
  end.

(** [subject.replace(/tok/g, replacement)] for a pattern that matches
    exactly the literal text [tok]: the subject is scanned from the
    left, every match is replaced by the expansion of the replacement
    text and the scan resumes after the match.  [scanned] is the part of
    the subject already passed, [skip] the number of units of the
    current match still to pass over. *)
Fixpoint replace_scan (tok replacement scanned : jsstring) (skip : nat)
  (s : jsstring) : jsstring :=
  match s with
  | [] => []
  | c :: s' =>
      match skip with
      | S k => replace_scan tok replacement (scanned ++ [c]) k s'
      | O =>
          if starts_with tok s then
            GetSubstitution tok scanned (drop (length tok) s) replacement
              ++ replace_scan tok replacement (scanned ++ [c])
                   (length tok - 1) s'
          else c :: replace_scan tok replacement (scanned ++ [c]) O s'
      end
  end.

Definition replace_global (tok replacement subject : jsstring) : jsstring :=
  replace_scan tok replacement [] O subject.

(** The replacement the extension's documentation describes: every
    match is replaced by the value itself, taken as plain text. *)
Fixpoint substitute_scan (tok value : jsstring) (skip : nat)
  (s : jsstring) : jsstring :=
  match s with
  | [] => []
  | c :: s' =>
      match skip with
      | S k => substitute_scan tok value k s'
      | O =>
          if starts_with tok s then
            value ++ substitute_scan tok value (length tok - 1) s'
          else c :: substitute_scan tok value O s'
      end
  end.

Definition substitute_all (tok value subject : jsstring) : jsstring :=
  substitute_scan tok value O subject.

(** Whether a text holds one of the four replacement patterns. *)
Definition is_pattern_char (d : N) : bool :=
  (d =? dollar) || (d =? ampersand) || (d =? backtick)
  || (d =? apostrophe).

Fixpoint has_pattern (s : jsstring) : bool :=
  match s with
  | [] => false
  | c :: rest =>
      ((c =? dollar)
       && match rest with
          | d :: _ => is_pattern_char d
          | [] => false
          end)
      || has_pattern rest
  end.

(** Whether [tok] is found somewhere in [s]. *)
Fixpoint occurs (tok s : jsstring) : bool :=
  starts_with tok s
  || match s with
     | [] => false
     | _ :: s' => occurs tok s'
     end.

(** Template-literal conversion of an integer. *)
Definition show_Z (z : Z) : jsstring :=
  lit (NilZero.string_of_int (Z.to_int z)).

End JS.

Import JS.

(** ** Errors

    [ClipboardError] extends [Error] with an optional [cause]; every
    other [Error] object is a [PlainError] here. *)

#[warnings="-register-all"]
Inductive Error : Type :=
| PlainError (message : jsstring)
| ClipboardError (message : jsstring) (cause : option Error).

Definition message (e : Error) : jsstring :=
  match e with
  | PlainError m => m
  | ClipboardError m _ => m
  end.

(** ** The upload side: [src/index.ts] *)

Module Upload.

Record UploadResult : Type := mkResult {
  filename : jsstring;
  url : jsstring
}.

Record Config : Type := mkConfig {
  binaryPath : jsstring;
  profile : jsstring;
  urlTemplate : jsstring
}.

Definition fileName_token : jsstring := lit "${fileName}".
Definition url_token : jsstring := lit "${url}".

Definition formatUrl (template : jsstring) (result : UploadResult)
  : jsstring :=
  replace_global url_token (url result)
    (replace_global fileName_token (filename result) template).

(** What the child process does, as seen by the listeners that
    [uploadImages] registers: chunks on its two streams (already
    decoded), its [close] event with the exit code ([None] for [null],
    a child ended by a signal), and the [error] event of a spawn that
    failed. *)
Inductive proc_event : Type :=
| StdoutData (data : jsstring)
| StderrData (data : jsstring)
| Close (code : option Z)
| SpawnError (err : Error).

(** What [spawn(binaryPath, args)] does: it throws at once (an empty
    file name, for one), or it starts a child, of which the events are
    given. *)
Inductive spawn_result : Type :=
| SpawnThrows (err : Error)
| Spawned (events : list proc_event).

(** A promise is settled at most once; later calls of [resolve] and
    [reject] do nothing. *)
Inductive promise (A : Type) : Type :=
| Pending
| Fulfilled (value : A)
| Rejected (reason : Error).
Global Arguments Pending {A}.
Global Arguments Fulfilled {A} value.
Global Arguments Rejected {A} reason.

Definition settle {A} (p outcome : promise A) : promise A :=
  match p with
  | Pending => outcome
  | _ => p
  end.

Record proc_state : Type := mkProc {
  stdout : jsstring;
  stderr : jsstring;
  settled : promise (list UploadResult)
}.

(** [`${code}`] *)
Definition show_code (code : option Z) : jsstring :=
  match code with
  | Some n => show_Z n
  | None => lit "null"
  end.

(** [code !== 0] *)
Definition code_nonzero (code : option Z) : bool :=
  match code with
  | Some n => negb (n =? 0)%Z
  | None => true
  end.

(** [array.join(sep)] *)
Fixpoint join (sep : jsstring) (l : list jsstring) : jsstring :=
  match l with
  | [] => []
  | [x] => x
  | x :: l' => x ++ sep ++ join sep l'
  end.

Inductive ui_event : Type :=
| ShowWarningMessage (msg : jsstring)
| ShowErrorMessage (msg : jsstring)
| EditorInsert (text : jsstring)
| LoggerInfo (msg : jsstring)
| LoggerError (msg : jsstring).

(** [activeTextEditor] is only asked whether it is there; the insertion
    at the cursor is recorded as an event. *)
Definition insertTextAtCursor (activeTextEditor : bool) (text : jsstring)
  : list ui_event :=
  if activeTextEditor then [EditorInsert text]
  else [ShowWarningMessage (lit "No active text editor")].

Section Invoker.

(** [path.basename] of the host platform. *)
Variable basename : jsstring -> jsstring.

(** The behaviour of [spawn(binaryPath, args)]. *)
Variable spawn : jsstring -> list jsstring -> spawn_result.

Definition upload_args (cfg : Config) (imagePaths : list jsstring)
  : list jsstring :=
  [lit "upload"]
    ++ (if Boolean (profile cfg) then [lit "--profile"; profile cfg]
        else [])
    ++ imagePaths.

Definition parse_urls (out : jsstring) : list jsstring :=
  List.filter Boolean (split newline (trim out)).

Definition make_results (imagePaths urls : list jsstring)
  : list UploadResult :=
  imap (fun index imagePath =>
          {| filename := basename imagePath;
             url := or_else (default [] (urls !! index)) [] |})
       imagePaths.

Definition on_close (imagePaths : list jsstring) (code : option Z)
  (st : proc_state) : promise (list UploadResult) :=
  if code_nonzero code then
    Rejected (PlainError
                (or_else (stderr st)
                   (lit "pic-od exited with code " ++ show_code code)))
  else
    let urls := parse_urls (stdout st) in
    Fulfilled (make_results imagePaths urls).

Definition on_event (imagePaths : list jsstring) (st : proc_state)
  (ev : proc_event) : proc_state :=
  match ev with
  | StdoutData data =>
      {| stdout := stdout st ++ data; stderr := stderr st;
         settled := settled st |}
  | StderrData data =>
      {| stdout := stdout st; stderr := stderr st ++ data;
         settled := settled st |}
  | Close code =>
      {| stdout := stdout st; stderr := stderr st;
         settled := settle (settled st) (on_close imagePaths code st) |}
  | SpawnError err =>
      {| stdout := stdout st; stderr := stderr st;
         settled :=
           settle (settled st)
             (Rejected (PlainError
                          (lit "Failed to execute pic-od: "
                             ++ message err))) |}
  end.

Definition run_events (imagePaths : list jsstring)
  (events : list proc_event) : proc_state :=
  fold_left (on_event imagePaths) events
    {| stdout := []; stderr := []; settled := Pending |}.

(** A throw inside the executor of [new Promise] rejects the promise
    with the value thrown. *)
Definition uploadImages (cfg : Config) (imagePaths : list jsstring)
  : promise (list UploadResult) :=
  match spawn (binaryPath cfg) (upload_args cfg imagePaths) with
  | SpawnThrows err => Rejected err
  | Spawned events => settled (run_events imagePaths events)
  end.

(** [None]: the promise of [uploadImages] is never settled and
    [handleUpload] never gets past its [await]. *)
Definition handleUpload (cfg : Config) (activeTextEditor : bool)
  (imagePaths : list jsstring) : option (list ui_event) :=
  match uploadImages cfg imagePaths with
  | Pending => None
  | Fulfilled results =>
      let formattedUrls :=
        join [newline]
          (map (formatUrl (urlTemplate cfg))
             (List.filter (fun r => Boolean (url r)) results)) in
      if Boolean formattedUrls then
        Some (insertTextAtCursor activeTextEditor formattedUrls
                ++ [LoggerInfo
                      (lit "Uploaded "
                         ++ show_Z (Z.of_nat (length results))
                         ++ lit " image(s)")])
      else Some [ShowWarningMessage (lit "No URLs returned from upload")]
  | Rejected err =>
      Some [LoggerError (lit "Upload failed: " ++ message err);
            ShowErrorMessage (lit "Upload failed: " ++ message err)]
  end.

End Invoker.

(** [path.posix.basename]: trailing slashes are dropped, then the part
    after the last remaining slash is kept. *)
Definition slash : N := 47.

Fixpoint drop_slashes (s : jsstring) : jsstring :=
  match s with
  | [] => []
  | c :: s' => if c =? slash then drop_slashes s' else s
  end.

Fixpoint take_segment (s : jsstring) : jsstring :=
  match s with
  | [] => []
  | c :: s' => if c =? slash then [] else c :: take_segment s'
  end.

Definition posix_basename (p : jsstring) : jsstring :=
  rev (take_segment (drop_slashes (rev p))).

(** Reading a list of events: the stream chunks it carries, put end to
    end, and whether it holds nothing but chunks. *)
Definition is_data (ev : proc_event) : bool :=
  match ev with
  | StdoutData _ | StderrData _ => true
  | Close _ | SpawnError _ => false
  end.

Fixpoint stdout_of (events : list proc_event) : jsstring :=
  match events with
  | [] => []
  | StdoutData data :: events' => data ++ stdout_of events'
  | _ :: events' => stdout_of events'
  end.

Fixpoint stderr_of (events : list proc_event) : jsstring :=
  match events with
  | [] => []
  | StderrData data :: events' => data ++ stderr_of events'
  | _ :: events' => stderr_of events'
  end.

(** [getConfig()]: the settings of the [pic-od] section that are set,
    by key; [config.get(key, fallback)] gives the fallback for the
    others. *)
Definition getConfig (settings : gmap (list N) (list N)) : Config :=
  {| binaryPath := default (lit "pic-od") (settings !! lit "binaryPath");
     profile := default [] (settings !! lit "profile");
     urlTemplate :=
       default (lit "![${fileName}](${url})")
         (settings !! lit "urlTemplate") |}.

(** A Markdown image, the reading of the default template. *)
Definition markdown_image (name address : jsstring) : jsstring :=
  lit "![" ++ name ++ lit "](" ++ address ++ lit ")".

End Upload.

(** ** The clipboard side: [src/clipboard.ts] *)

Module Clipboard.

(** The five shell commands the extractors pass to [execAsync], each
    writing to [outputPath]:
    [pngpaste], [osascript -e ...], [xclip -selection clipboard -t
    image/png -o >], [xsel --clipboard --output >] and
    [powershell -NoProfile -Command ...]. *)
Inductive command : Type :=
| PngPaste (outputPath : jsstring)
| OsaScript (outputPath : jsstring)
| XClip (outputPath : jsstring)
| XSel (outputPath : jsstring)
| PowerShell (outputPath : jsstring).

Inductive syscall : Type :=
| SysExec (cmd : command)
| SysStat (path : jsstring)
| SysUnlink (path : jsstring).

(** The files on disk with their sizes, and the calls made so far
    (oldest first). *)
Record world : Type := mkWorld {
  files : gmap (list N) N;
  trace : list syscall
}.

(** JavaScript can throw any value; [instanceof Error] tells the
    [Error] objects from the rest. *)
Inductive thrown : Type :=
| ThrowError (e : Error)
| ThrowValue (v : jsstring).

(** [err instanceof Error ? err : undefined] *)
Definition as_Error (t : thrown) : option Error :=
  match t with
  | ThrowError e => Some e
  | ThrowValue _ => None
  end.

Inductive outcome (A : Type) : Type :=
| Returned (a : A)
| Thrown (t : thrown).
Global Arguments Returned {A} a.
Global Arguments Thrown {A} t.

Definition M (A : Type) : Type := world -> outcome A * world.

Definition ret {A} (a : A) : M A := fun w => (Returned a, w).

Definition throw {A} (t : thrown) : M A := fun w => (Thrown t, w).

Definition bind {A B} (m : M A) (k : A -> M B) : M B :=
  fun w =>
    match m w with
    | (Returned a, w') => k a w'
    | (Thrown t, w') => (Thrown t, w')
    end.

Definition try_catch {A} (body : M A) (handler : thrown -> M A) : M A :=
  fun w =>
    match body w with
    | (Returned a, w') => (Returned a, w')
    | (Thrown t, w') => handler t w'
    end.

Declare Scope clip_scope.
Delimit Scope clip_scope with clip.
Notation "x <- m ;; k" := (bind m (fun x => k))
  (at level 100, m at next level, right associativity) : clip_scope.
Notation "m ;;; k" := (bind m (fun _ => k))
  (at level 100, right associativity) : clip_scope.
Local Open Scope clip_scope.

Definition log (c : syscall) (w : world) : world :=
  {| files := files w; trace := trace w ++ [c] |}.

Definition ENOENT (call : string) (path : jsstring) : thrown :=
  ThrowError
    (PlainError
       (lit "ENOENT: no such file or directory, " ++ lit call ++ lit " '"
          ++ path ++ lit "'")).

(** [fs.promises.stat(path)], of which only [size] is read. *)
Definition stat (path : jsstring) : M N :=
  fun w =>
    match files w !! path with
    | Some size => (Returned size, log (SysStat path) w)
    | None => (Thrown (ENOENT "stat" path), log (SysStat path) w)
    end.

(** [fs.promises.unlink(path)]: an existing file is removed, a missing
    one makes the call fail. *)
Definition unlink (path : jsstring) : M unit :=
  fun w =>
    match files w !! path with
    | Some _ =>
        (Returned tt,
         {| files := delete path (files w);
            trace := trace w ++ [SysUnlink path] |})
    | None => (Thrown (ENOENT "unlink" path), log (SysUnlink path) w)
    end.

(** The messages of the macOS and the Linux extractor. *)
Definition install_pngpaste : jsstring :=
  lit "No image in clipboard. Install pngpaste for better support: brew install pngpaste".

Definition install_xclip : jsstring :=
  lit "No image in clipboard or missing clipboard tools. Install xclip: sudo apt install xclip".

Section Host.

(** What a shell command does to the files, and the value its promise
    rejects with when it fails. *)
Variable exec :
  command -> gmap (list N) N -> option thrown * gmap (list N) N.

Definition execAsync (cmd : command) : M unit :=
  fun w =>
    let (failure, files') := exec cmd (files w) in
    let w' := {| files := files'; trace := trace w ++ [SysExec cmd] |} in
    match failure with
    | None => (Returned tt, w')
    | Some t => (Thrown t, w')
    end.

(** In the extractors, a [true] result stands for the [return] out of
    a [try] block, [false] for falling through to the next
    statement. *)
Definition saveClipboardImageDarwin (outputPath : jsstring) : M unit :=
  returned <-
    try_catch (execAsync (PngPaste outputPath) ;;; ret true)
              (fun _ => ret false) ;;
  if returned : bool then ret tt
  else
    try_catch
      (execAsync (OsaScript outputPath))
      (fun err =>
         throw (ThrowError
                  (ClipboardError install_pngpaste (as_Error err)))).

Definition saveClipboardImageLinux (outputPath : jsstring) : M unit :=
  returned <-
    try_catch
      (execAsync (XClip outputPath) ;;;
       size <- stat outputPath ;;
       if 0 <? size then ret true
       else unlink outputPath ;;; ret false)
      (fun _ => ret false) ;;
  if returned : bool then ret tt
  else
    returned <-
      try_catch
        (execAsync (XSel outputPath) ;;;
         size <- stat outputPath ;;
         if 0 <? size then ret true
         else unlink outputPath ;;; ret false)
        (fun _ => ret false) ;;
    if returned : bool then ret tt
    else
      throw (ThrowError
               (ClipboardError install_xclip None)).

Definition saveClipboardImageWindows (outputPath : jsstring) : M unit :=
  try_catch
    (execAsync (PowerShell outputPath))
    (fun err =>
       throw (ThrowError
                (ClipboardError (lit "No image in clipboard")
                   (as_Error err)))).

(** The [switch] on [os.platform()]. *)
Definition extract (platform outputPath : jsstring) : M unit :=
  if eqb platform (lit "darwin") then saveClipboardImageDarwin outputPath
  else if eqb platform (lit "linux") then
    saveClipboardImageLinux outputPath
  else if eqb platform (lit "win32") then
    saveClipboardImageWindows outputPath
  else
    throw (ThrowError
             (ClipboardError (lit "Unsupported platform: " ++ platform)
                None)).

(** The [try] block of [saveClipboardImage]. *)
Definition saveClipboardImage_try (platform outputPath : jsstring)
  : M jsstring :=
  extract platform outputPath ;;;
  size <- stat outputPath ;;
  if size =? 0 then
    unlink outputPath ;;;
    throw (ThrowError (ClipboardError (lit "No image in clipboard") None))
  else ret outputPath.

(** Its [catch] block. *)
Definition saveClipboardImage_catch (outputPath : jsstring)
  (err : thrown) : M jsstring :=
  try_catch (unlink outputPath) (fun _ => ret tt) ;;;
  match err with
  | ThrowError (ClipboardError _ _) => throw err
  | _ =>
      throw (ThrowError
               (ClipboardError (lit "Failed to save clipboard image")
                  (as_Error err)))
  end.

(** [saveClipboardImage()], given what [os.platform()] and
    [generateTempFilePath()] returned. *)
Definition saveClipboardImage (platform outputPath : jsstring)
  : M jsstring :=
  try_catch (saveClipboardImage_try platform outputPath)
            (saveClipboardImage_catch outputPath).

Definition cleanupTempFile (filePath : jsstring) : M unit :=
  try_catch (unlink filePath) (fun _ => ret tt).

(** One attempt of the Linux extractor, read off the environment: it
    succeeds when the command exits normally and leaves a file of
    non-zero size; the size is looked at, and a zero-byte file
    deleted, only after a command that exited normally. *)
Definition attempt_succeeds (cmd : command) (outputPath : jsstring)
  (fs : gmap (list N) N) : bool :=
  match exec cmd fs with
  | (None, fs') =>
      match fs' !! outputPath with
      | Some size => 0 <? size
      | None => false
      end
  | (Some _, _) => false
  end.

Definition files_after_attempt (cmd : command) (outputPath : jsstring)
  (fs : gmap (list N) N) : gmap (list N) N :=
  match exec cmd fs with
  | (None, fs') =>
      match fs' !! outputPath with
      | Some size => if 0 <? size then fs' else delete outputPath fs'
      | None => fs'
      end
  | (Some _, fs') => fs'
  end.

Definition calls_of_attempt (cmd : command) (outputPath : jsstring)
  (fs : gmap (list N) N) : list syscall :=
  match exec cmd fs with
  | (None, fs') =>
      match fs' !! outputPath with
      | Some size =>
          if 0 <? size then [SysExec cmd; SysStat outputPath]
          else [SysExec cmd; SysStat outputPath; SysUnlink outputPath]
      | None => [SysExec cmd; SysStat outputPath]
      end
  | (Some _, _) => [SysExec cmd]
  end.

End Host.

(** What [saveClipboardImage] throws for a value thrown in its [try]
    block. *)
Definition surfaced (err : thrown) : thrown :=
  match err with
  | ThrowError (ClipboardError _ _) => err
  | _ =>
      ThrowError
        (ClipboardError (lit "Failed to save clipboard image")
           (as_Error err))
  end.

(** The world after one more [unlink] of [path]. *)
Definition unlinked (path : jsstring) (w : world) : world :=
  {| files := delete path (files w);
     trace := trace w ++ [SysUnlink path] |}.

(** Whether a call is about [path]: a [stat] or an [unlink] of it, or
    one of the commands writing to it. *)
Definition concerns (path : jsstring) (c : syscall) : bool :=
  match c with
  | SysStat p | SysUnlink p => eqb p path
  | SysExec (PngPaste p) | SysExec (OsaScript p) | SysExec (XClip p)
  | SysExec (XSel p) | SysExec (PowerShell p) => eqb p path
  end.

(** Relations between the world before and after a computation. *)
Definition keeps {A} (R : world -> world -> Prop) (m : M A) : Prop :=
  forall w, R w (snd (m w)).

(** Every file other than [path] is as it was. *)
Definition same_elsewhere (path : jsstring) (w w' : world) : Prop :=
  forall p, p <> path -> files w' !! p = files w !! p.

(** The calls made in between are all about [path]. *)
Definition only_calls_on (path : jsstring) (w w' : world) : Prop :=
  exists added,
    trace w' = trace w ++ added
    /\ Forall (fun c => concerns path c = true) added.

End Clipboard.

Import Upload Clipboard.

(** ** The command of the extension that uploads from the clipboard *)

Module Extension.

Section Commands.

Variable basename : jsstring -> jsstring.
Variable spawn : jsstring -> list jsstring -> spawn_result.
Variable exec :
  command -> gmap (list N) N -> option thrown * gmap (list N) N.

(** What happens to the files while the upload runs. *)
Variable during_upload : gmap (list N) N -> gmap (list N) N.

(** The message shown by the [catch] block of the command;
    [String(err)] of a thrown string is that string. *)
Definition shown_message (err : thrown) : jsstring :=
  match err with
  | ThrowError (ClipboardError m _) => m
  | ThrowError (PlainError m) => lit "Failed to read clipboard: " ++ m
  | ThrowValue v => lit "Failed to read clipboard: " ++ v
  end.

(** The handler of [picOdUploadFromClipboard], given what
    [os.platform()] and [generateTempFilePath()] return.  [None]: the
    upload never settles and the handler never reaches its [finally]
    block. *)
Definition uploadFromClipboard (platform outputPath : jsstring)
  (cfg : Config) (activeTextEditor : bool) (w : world)
  : option (list ui_event) * world :=
  match saveClipboardImage exec platform outputPath w with
  | (Returned tempFile, w1) =>
      let w2 := {| files := during_upload (files w1);
                   trace := trace w1 |} in
      match handleUpload basename spawn cfg activeTextEditor [tempFile] with
      | None => (None, w2)
      | Some shown =>
          (Some shown,
           if Boolean tempFile then snd (cleanupTempFile tempFile w2)
           else w2)
      end
  | (Thrown err, w1) => (Some [ShowErrorMessage (shown_message err)], w1)
  end.

End Commands.

End Extension.

(** ** Concrete hosts on which the statements below are run *)

Module Scenario.

Definition config : Config :=
  {| binaryPath := lit "pic-od";
     profile := [];
     urlTemplate := lit "![${fileName}](${url})" |}.

Definition three_paths : list jsstring :=
  [lit "/home/u/a.png"; lit "/home/u/b.png"; lit "/home/u/c.png"].

(** The tool prints one line for three inputs. *)
Definition spawn_one_line (bin : jsstring) (args : list jsstring)
  : spawn_result :=
  Spawned
    [StdoutData (lit "http://h/a.png"); StdoutData [newline];
     Close (Some 0%Z)].

(** The tool prints four lines for three inputs. *)
Definition spawn_four_lines (bin : jsstring) (args : list jsstring)
  : spawn_result :=
  Spawned
    [StdoutData (lit "u1" ++ [newline] ++ lit "u2" ++ [newline]);
     StdoutData (lit "u3" ++ [newline] ++ lit "u4" ++ [newline]);
     Close (Some 0%Z)].

(** The tool prints blank lines only. *)
Definition spawn_blank (bin : jsstring) (args : list jsstring)
  : spawn_result :=
  Spawned
    [StdoutData [newline; newline]; Close (Some 0%Z)].

(** The tool complains and exits with code 1. *)
Definition spawn_exit_1 (bin : jsstring) (args : list jsstring)
  : spawn_result :=
  Spawned
    [StderrData (lit "no such profile"); Close (Some 1%Z)].

(** The binary is missing: [error], then [close]. *)
Definition spawn_missing (bin : jsstring) (args : list jsstring)
  : spawn_result :=
  Spawned
    [SpawnError (PlainError (lit "spawn pic-od ENOENT"));
     Close (Some (-2)%Z)].

Definition temp_path : jsstring :=
  lit "/tmp/clipboard-1730000000000-k3x9qa.png".

Definition empty_disk : world := {| files := ∅; trace := [] |}.

Definition exit_code (n : string) : thrown :=
  ThrowError (PlainError (lit "Command failed with exit code " ++ lit n)).

(** Neither xclip nor xsel is installed: the shell creates the
    redirection target, finds no program and exits with code 127. *)
Definition exec_no_tools (cmd : command) (fs : gmap (list N) N)
  : option thrown * gmap (list N) N :=
  match cmd with
  | XClip out | XSel out => (Some (exit_code "127"), <[out := 0]> fs)
  | _ => (Some (exit_code "127"), fs)
  end.

(** xclip prints nothing and exits with code 0; xsel prints 2048
    bytes. *)
Definition exec_xsel_works (cmd : command) (fs : gmap (list N) N)
  : option thrown * gmap (list N) N :=
  match cmd with
  | XClip out => (None, <[out := 0]> fs)
  | XSel out => (None, <[out := 2048]> fs)
  | _ => (Some (exit_code "127"), fs)
  end.

(** Every command exits with code 0 and writes nothing. *)
Definition exec_silent (cmd : command) (fs : gmap (list N) N)
  : option thrown * gmap (list N) N :=
  (None, fs).

(** pngpaste is missing, osascript writes 4096 bytes. *)
Definition exec_osascript_works (cmd : command) (fs : gmap (list N) N)
  : option thrown * gmap (list N) N :=
  match cmd with
  | OsaScript out => (None, <[out := 4096]> fs)
  | _ => (Some (exit_code "127"), fs)
  end.

Definition two_paths : list jsstring :=
  [lit "/home/u/a.png"; lit "/home/u/b.png"].

Definition two_urls : list jsstring :=
  [lit "http://a/1.png"; lit "http://a/2.png"].

(** The tool prints one URL per input, each on its own line. *)
Definition spawn_two_urls (bin : jsstring) (args : list jsstring)
  : spawn_result :=
  Spawned
    [StdoutData (lit "http://a/1.png" ++ [newline] ++ lit "http://a/2.png"
                   ++ [newline]);
     Close (Some 0%Z)].


(** A disk with one file that is not the temp path. *)
Definition disk_with_note : world :=
  {| files := {[ lit "/home/u/note.txt" := 7 ]}; trace := [] |}.

(** The two URLs in one chunk, and in three with an empty chunk of the
    other stream in between. *)
Definition output_whole : list proc_event :=
  [StdoutData (lit "http://a/1.png" ++ [newline] ++ lit "http://a/2.png"
                 ++ [newline])].

Definition output_chunked : list proc_event :=
  [StdoutData (lit "http://a/1.p"); StderrData [];
   StdoutData (lit "ng" ++ [newline] ++ lit "http://a/2.png");
   StdoutData [newline]].

(** The child prints nothing and exits with code 3. *)
Definition spawn_exit_3 (bin : jsstring) (args : list jsstring)
  : spawn_result :=
  Spawned [Close (Some 3%Z)].

(** [spawn] as Node has it for the file name: an empty one makes it
    throw a [TypeError]; any other starts the tool, which here prints
    one URL and exits with code 0. *)
Definition spawn_checks_file (bin : jsstring) (args : list jsstring)
  : spawn_result :=
  if Boolean bin then
    Spawned [StdoutData (lit "http://h/a.png"); StdoutData [newline];
             Close (Some 0%Z)]
  else
    SpawnThrows
      (PlainError (lit "The argument 'file' cannot be empty. Received ''")).

(** The settings with [pic-od.binaryPath] set to the empty string. *)
Definition config_empty_binary : Config :=
  getConfig {[ lit "binaryPath" := [] ]}.

(** The upload leaves the files alone. *)
Definition untouched (fs : gmap (list N) N) : gmap (list N) N := fs.

End Scenario.

(** * Properties of the upload invoker *)

Section UploadInvoker.

Variable basename : jsstring -> jsstring.

Lemma fold_data (paths : list jsstring) (events : list proc_event) :
  forall st,
    forallb is_data events = true ->
    fold_left (on_event basename paths) events st
    = {| stdout := stdout st ++ stdout_of events;
         stderr := stderr st ++ stderr_of events;
         settled := settled st |}.
Proof.
  induction events as [|ev events IH]; intros st Hdata; simpl.
  - rewrite !app_nil_r. now destruct st.
  - simpl in Hdata. apply andb_prop in Hdata as [Hev Hrest].
    rewrite (IH _ Hrest).
    destruct ev; try discriminate; simpl; now rewrite <- app_assoc.
Qed.

Lemma fold_settled (paths : list jsstring) (events : list proc_event) :
  forall st,
    settled st <> Pending ->
    settled (fold_left (on_event basename paths) events st) = settled st.
Proof.
  induction events as [|ev events IH]; intros st Hst; simpl; [reflexivity|].
  rewrite IH.
  - destruct ev; simpl; try reflexivity;
      destruct (settled st); simpl; congruence.
  - destruct ev; simpl; try assumption;
      destruct (settled st); simpl; congruence.
Qed.

(** The first [close] or [error] event settles the promise; what comes
    after it is ignored. *)
Lemma run_first_settling (paths : list jsstring)
  (pre post : list proc_event) (ev : proc_event) :
  forallb is_data pre = true ->
  is_data ev = false ->
  settled (run_events basename paths (pre ++ ev :: post))
  = settled (on_event basename paths
               {| stdout := stdout_of pre; stderr := stderr_of pre;
                  settled := Pending |} ev).
Proof.
  intros Hpre Hev. unfold run_events.
  rewrite fold_left_app. simpl fold_left at 2.
  rewrite (fold_data _ _ _ Hpre). simpl.
  apply fold_settled.
  destruct ev; simpl in *; try discriminate.
  unfold on_close. destruct (code_nonzero code); discriminate.
Qed.

Lemma run_only_data (paths : list jsstring) (events : list proc_event) :
  forallb is_data events = true ->
  settled (run_events basename paths events) = Pending.
Proof.
  intros H. unfold run_events. now rewrite (fold_data _ _ _ H).
Qed.

(** Every event list is chunks only, or chunks up to a first [close] or
    [error] event. *)
Lemma first_settling_event (events : list proc_event) :
  forallb is_data events = true
  \/ exists pre ev post,
       events = pre ++ ev :: post
       /\ forallb is_data pre = true /\ is_data ev = false.
Proof.
  induction events as [|ev events IH]; [now left|].
  destruct (is_data ev) eqn:Hev.
  - destruct IH as [IH | (pre & ev' & post & -> & Hpre & Hev')].
    + left. simpl. now rewrite Hev.
    + right. exists (ev :: pre), ev', post. simpl. now rewrite Hev.
  - right. now exists [], ev, events.
Qed.

Lemma parse_urls_nonempty (out u : jsstring) (i : nat) :
  parse_urls out !! i = Some u -> Boolean u = true.
Proof.
  intros H. apply list_elem_of_lookup_2, list_elem_of_In in H.
  unfold parse_urls in H. now apply filter_In in H.
Qed.

Lemma make_results_length (paths urls : list jsstring) :
  length (make_results basename paths urls) = length paths.
Proof. unfold make_results. apply length_imap. Qed.

Lemma make_results_lookup (paths urls : list jsstring) (i : nat) :
  make_results basename paths urls !! i
  = (fun p => {| filename := basename p;
                 url := or_else (default [] (urls !! i)) [] |})
      <$> paths !! i.
Proof. unfold make_results. now rewrite list_lookup_imap. Qed.

Lemma make_results_take (paths urls : list jsstring) :
  make_results basename paths urls
  = make_results basename paths (take (length paths) urls).
Proof.
  apply list_eq; intros i. rewrite !make_results_lookup.
  destruct (paths !! i) as [p|] eqn:Hp; [|reflexivity].
  apply lookup_lt_Some in Hp. simpl.
  now rewrite lookup_take_lt.
Qed.

Variable spawn : jsstring -> list jsstring -> spawn_result.

Lemma uploadImages_spawned (cfg : Config) (paths : list jsstring)
  (events : list proc_event) :
  spawn (binaryPath cfg) (upload_args cfg paths) = Spawned events ->
  uploadImages basename spawn cfg paths
  = settled (run_events basename paths events).
Proof. intros Hrun. unfold uploadImages. now rewrite Hrun. Qed.

Lemma uploadImages_thrown (cfg : Config) (paths : list jsstring)
  (err : Error) :
  spawn (binaryPath cfg) (upload_args cfg paths) = SpawnThrows err ->
  uploadImages basename spawn cfg paths = Rejected err.
Proof. intros Hrun. unfold uploadImages. now rewrite Hrun. Qed.

Lemma uploadImages_exit_0 (cfg : Config) (paths : list jsstring)
  (pre post : list proc_event) :
  spawn (binaryPath cfg) (upload_args cfg paths)
    = Spawned (pre ++ Close (Some 0%Z) :: post) ->
  forallb is_data pre = true ->
  uploadImages basename spawn cfg paths
  = Fulfilled (make_results basename paths (parse_urls (stdout_of pre))).
Proof.
  intros Hrun Hpre. rewrite (uploadImages_spawned _ _ _ Hrun).
  rewrite run_first_settling by easy. reflexivity.
Qed.

(** C3. With N input paths and M < N non-empty lines on the standard
    output, a child that closes with exit code 0 makes [uploadImages]
    resolve; the result at each index below M carries the line of that
    index, and the results at the indices M to N-1 carry the empty
    string. *)
Theorem uploadImages_fewer_urls (cfg : Config) (paths : list jsstring)
  (pre post : list proc_event) :
  spawn (binaryPath cfg) (upload_args cfg paths)
    = Spawned (pre ++ Close (Some 0%Z) :: post) ->
  forallb is_data pre = true ->
  (length (parse_urls (stdout_of pre)) < length paths)%nat ->
  exists results,
    uploadImages basename spawn cfg paths = Fulfilled results
    /\ (forall i line,
          parse_urls (stdout_of pre) !! i = Some line ->
          url <$> results !! i = Some line)
    /\ (forall i,
          (length (parse_urls (stdout_of pre)) <= i < length paths)%nat ->
          url <$> results !! i = Some []).
Proof.
  intros Hrun Hpre Hfew.
  exists (make_results basename paths (parse_urls (stdout_of pre))).
  split; [now apply uploadImages_exit_0 with post|].
  split.
  - intros i line Hline. rewrite make_results_lookup.
    assert (Hi : (i < length paths)%nat).
    { apply lookup_lt_Some in Hline. lia. }
    apply lookup_lt_is_Some_2 in Hi as [p Hp].
    rewrite Hp, Hline. simpl. unfold or_else.
    now rewrite (parse_urls_nonempty _ _ _ Hline).
  - intros i [Hlo Hhi]. rewrite make_results_lookup.
    apply lookup_lt_is_Some_2 in Hhi as [p Hp].
    apply lookup_ge_None_2 in Hlo.
    now rewrite Hp, Hlo.
Qed.

(** C9. On exit code 0 [uploadImages] resolves with exactly one result
    per input path, in input order: the result at index i has the
    basename of the i-th path and the i-th non-empty output line (the
    empty string if there is none).  Lines at index N and beyond have
    no influence on the results. *)
Theorem uploadImages_one_result_per_path (cfg : Config)
  (paths : list jsstring) (pre post : list proc_event) :
  spawn (binaryPath cfg) (upload_args cfg paths)
    = Spawned (pre ++ Close (Some 0%Z) :: post) ->
  forallb is_data pre = true ->
  exists results,
    uploadImages basename spawn cfg paths = Fulfilled results
    /\ length results = length paths
    /\ filename <$> results = basename <$> paths
    /\ (forall i p,
          paths !! i = Some p ->
          results !! i
          = Some {| filename := basename p;
                    url := default [] (parse_urls (stdout_of pre) !! i) |})
    /\ results
       = make_results basename paths
           (take (length paths) (parse_urls (stdout_of pre))).
Proof.
  intros Hrun Hpre.
  exists (make_results basename paths (parse_urls (stdout_of pre))).
  split; [now apply uploadImages_exit_0 with post|].
  split; [apply make_results_length|].
  split; [|split].
  - apply list_eq; intros i.
    rewrite !list_lookup_fmap, make_results_lookup.
    now destruct (paths !! i).
  - intros i p Hp. rewrite make_results_lookup, Hp. simpl.
    f_equal. f_equal. unfold or_else.
    destruct (parse_urls (stdout_of pre) !! i) as [u|] eqn:Hu;
      [|reflexivity].
    simpl. now rewrite (parse_urls_nonempty _ _ _ Hu).
  - apply make_results_take.
Qed.

(** X26. [uploadImages] rejects in three ways and no other.  When
    [spawn] throws, the reason is the error thrown, as it is.  When the
    first [close] or [error] event of the child is a [close] with a
    code other than 0 ([code !== 0], which [null] satisfies as well),
    the message is the captured standard error if that is not empty,
    and "pic-od exited with code N" otherwise.  When it is an [error],
    the message is "Failed to execute pic-od: " followed by the message
    of the underlying error. *)
Theorem uploadImages_rejects_iff (cfg : Config) (paths : list jsstring)
  (reason : Error) :
  uploadImages basename spawn cfg paths = Rejected reason
  <-> spawn (binaryPath cfg) (upload_args cfg paths) = SpawnThrows reason
      \/ exists pre post,
           forallb is_data pre = true
           /\ ((exists code,
                  spawn (binaryPath cfg) (upload_args cfg paths)
                    = Spawned (pre ++ Close code :: post)
                  /\ code <> Some 0%Z
                  /\ reason
                     = PlainError
                         (if Boolean (stderr_of pre) then stderr_of pre
                          else lit "pic-od exited with code "
                                 ++ show_code code))
               \/ (exists err,
                     spawn (binaryPath cfg) (upload_args cfg paths)
                       = Spawned (pre ++ SpawnError err :: post)
                     /\ reason
                        = PlainError
                            (lit "Failed to execute pic-od: "
                               ++ message err))).
Proof.
  split.
  - intros Hrej. unfold uploadImages in Hrej.
    destruct (spawn (binaryPath cfg) (upload_args cfg paths))
      as [thrown|events] eqn:Hspawn.
    + left. now injection Hrej as ->.
    + right.
      destruct (first_settling_event events)
        as [Hdata | (pre & ev & post & Hrun & Hpre & Hev)].
      * rewrite run_only_data in Hrej by assumption. discriminate.
      * rewrite Hrun, run_first_settling in Hrej by assumption.
        exists pre, post. split; [assumption|].
        destruct ev as [| |code|err]; try discriminate; simpl in Hrej.
        -- left. exists code. unfold on_close in Hrej. simpl in Hrej.
           destruct (code_nonzero code) eqn:Hcode; [|discriminate].
           injection Hrej as <-. rewrite Hrun.
           repeat split. intros ->. discriminate.
        -- right. exists err. injection Hrej as <-. now rewrite Hrun.
  - intros [Hthrown | (pre & post & Hpre & [(code & Hrun & Hcode & ->)
                                           | (err & Hrun & ->)])].
    + now apply uploadImages_thrown.
    + rewrite (uploadImages_spawned _ _ _ Hrun).
      rewrite run_first_settling by easy. simpl.
      unfold on_close. simpl.
      destruct (code_nonzero code) eqn:Hnz; [reflexivity|].
      destruct code as [n|]; [|discriminate].
      simpl in Hnz. apply negb_false_iff, Z.eqb_eq in Hnz.
      congruence.
    + rewrite (uploadImages_spawned _ _ _ Hrun).
      now rewrite run_first_settling by easy.
Qed.

(** C7. When the upload resolves and every result has an empty URL,
    [handleUpload] shows the warning "No URLs returned from upload" and
    does nothing else: nothing is inserted into the editor, and no
    error is shown or logged. *)
Theorem handleUpload_no_urls (cfg : Config) (activeTextEditor : bool)
  (paths : list jsstring) (results : list UploadResult) :
  uploadImages basename spawn cfg paths = Fulfilled results ->
  Forall (fun r => url r = []) results ->
  handleUpload basename spawn cfg activeTextEditor paths
  = Some [ShowWarningMessage (lit "No URLs returned from upload")].
Proof.
  intros Hup Hempty. unfold handleUpload. rewrite Hup.
  assert (Hnone : List.filter (fun r => Boolean (url r)) results = []).
  { clear Hup. induction Hempty as [|r rs Hr _ IH]; [reflexivity|].
    simpl. now rewrite Hr, IH. }
  now rewrite Hnone.
Qed.

End UploadInvoker.

Lemma uploadImages_fewer_urls_witness :
  exists results,
    uploadImages posix_basename Scenario.spawn_one_line Scenario.config
      Scenario.three_paths = Fulfilled results
    /\ url <$> results !! 0%nat = Some (lit "http://h/a.png")
    /\ url <$> results !! 1%nat = Some []
    /\ url <$> results !! 2%nat = Some [].
Proof.
  destruct (uploadImages_fewer_urls posix_basename Scenario.spawn_one_line
              Scenario.config Scenario.three_paths
              [StdoutData (lit "http://h/a.png"); StdoutData [newline]] [])
    as (results & Hup & Hlines & Hrest).
  - reflexivity.
  - reflexivity.
  - vm_compute. lia.
  - exists results. split; [exact Hup|]. split; [|split].
    + apply Hlines. reflexivity.
    + apply Hrest. vm_compute. lia.
    + apply Hrest. vm_compute. lia.
Defined.

Lemma uploadImages_one_result_per_path_witness :
  exists results,
    uploadImages posix_basename Scenario.spawn_four_lines Scenario.config
      Scenario.three_paths = Fulfilled results
    /\ results
       = [ {| filename := lit "a.png"; url := lit "u1" |};
           {| filename := lit "b.png"; url := lit "u2" |};
           {| filename := lit "c.png"; url := lit "u3" |} ].
Proof.
  destruct (uploadImages_one_result_per_path posix_basename
              Scenario.spawn_four_lines Scenario.config Scenario.three_paths
              [StdoutData (lit "u1" ++ [newline] ++ lit "u2" ++ [newline]);
               StdoutData (lit "u3" ++ [newline] ++ lit "u4" ++ [newline])]
              [])
    as (results & Hup & _ & _ & _ & Hres).
  - reflexivity.
  - reflexivity.
  - exists results. split; [exact Hup|]. rewrite Hres. reflexivity.
Defined.

(** C6. An empty [pic-od.binaryPath] makes [spawn] throw, so the tool
    fails to start; yet the promise is rejected with the [TypeError] as
    it is, not with the "Failed to execute pic-od: " message that the
    [error] handler gives to a spawn failure, and [handleUpload] shows
    the bare text. *)
Theorem uploadImages_spawn_throw_unwrapped :
  let thrown :=
    PlainError (lit "The argument 'file' cannot be empty. Received ''") in
  let cfg := Scenario.config_empty_binary in
  binaryPath cfg = []
  /\ Scenario.spawn_checks_file (binaryPath cfg)
       (upload_args cfg Scenario.two_paths) = SpawnThrows thrown
  /\ uploadImages posix_basename Scenario.spawn_checks_file cfg
       Scenario.two_paths = Rejected thrown
  /\ uploadImages posix_basename Scenario.spawn_checks_file cfg
       Scenario.two_paths
     <> Rejected
          (PlainError (lit "Failed to execute pic-od: " ++ message thrown))
  /\ handleUpload posix_basename Scenario.spawn_checks_file cfg true
       Scenario.two_paths
     = Some [LoggerError
               (lit "Upload failed: The argument 'file' cannot be empty. Received ''");
             ShowErrorMessage
               (lit "Upload failed: The argument 'file' cannot be empty. Received ''")].
Proof.
  cbv zeta. repeat split; try reflexivity.
  vm_compute. discriminate.
Qed.

Lemma uploadImages_rejects_iff_witness :
  uploadImages posix_basename Scenario.spawn_exit_1 Scenario.config
    Scenario.three_paths
  = Rejected (PlainError (lit "no such profile"))
  /\ uploadImages posix_basename Scenario.spawn_exit_3 Scenario.config
       Scenario.three_paths
     = Rejected (PlainError (lit "pic-od exited with code 3"))
  /\ uploadImages posix_basename Scenario.spawn_missing Scenario.config
       Scenario.three_paths
     = Rejected
         (PlainError (lit "Failed to execute pic-od: spawn pic-od ENOENT"))
  /\ uploadImages posix_basename Scenario.spawn_checks_file
       Scenario.config_empty_binary Scenario.three_paths
     = Rejected
         (PlainError
            (lit "The argument 'file' cannot be empty. Received ''")).
Proof.
  split; [|split; [|split]].
  - apply (uploadImages_rejects_iff posix_basename Scenario.spawn_exit_1).
    right. exists [StderrData (lit "no such profile")], [].
    split; [reflexivity|]. left. exists (Some 1%Z).
    repeat split; try reflexivity; discriminate.
  - apply (uploadImages_rejects_iff posix_basename Scenario.spawn_exit_3).
    right. exists [], [].
    split; [reflexivity|]. left. exists (Some 3%Z).
    repeat split; try reflexivity; discriminate.
  - apply (uploadImages_rejects_iff posix_basename Scenario.spawn_missing).
    right. exists [], [Close (Some (-2)%Z)].
    split; [reflexivity|]. right.
    exists (PlainError (lit "spawn pic-od ENOENT")).
    split; reflexivity.
  - apply (uploadImages_rejects_iff posix_basename
             Scenario.spawn_checks_file).
    left. reflexivity.
Defined.

Lemma handleUpload_no_urls_witness :
  handleUpload posix_basename Scenario.spawn_blank Scenario.config true
    Scenario.three_paths
  = Some [ShowWarningMessage (lit "No URLs returned from upload")].
Proof.
  apply (handleUpload_no_urls posix_basename Scenario.spawn_blank
           Scenario.config true Scenario.three_paths
           [ {| filename := lit "a.png"; url := [] |};
             {| filename := lit "b.png"; url := [] |};
             {| filename := lit "c.png"; url := [] |} ]).
  - reflexivity.
  - repeat constructor.
Defined.

(** * Properties of the result formatter *)

Lemma GetSubstitution_no_pattern (matched before after template : jsstring) :
  has_pattern template = false ->
  GetSubstitution matched before after template = template.
Proof.
  induction template as [|c rest IH]; [reflexivity|].
  simpl. intros H. apply orb_false_elim in H as [Hhead Hrest].
  specialize (IH Hrest).
  destruct (c =? dollar) eqn:Hc; [|now rewrite IH].
  apply N.eqb_eq in Hc as ->.
  destruct rest as [|d rest']; [reflexivity|].
  simpl in Hhead. unfold is_pattern_char in Hhead.
  repeat (apply orb_false_elim in Hhead as [Hhead ?]).
  rewrite Hhead. do 3 match goal with H : (d =? _) = false |- _ =>
                         rewrite H; clear H end.
  now rewrite IH.
Qed.

Lemma replace_scan_no_pattern (tok value : jsstring) :
  has_pattern value = false ->
  forall s scanned skip,
    replace_scan tok value scanned skip s = substitute_scan tok value skip s.
Proof.
  intros Hv. induction s as [|c s IH]; intros scanned skip; [reflexivity|].
  simpl. destruct skip; [|apply IH].
  rewrite !IH, GetSubstitution_no_pattern by assumption. reflexivity.
Qed.

(** X25. For values free of replacement patterns the formatter puts the
    file name in place of every [${fileName}] of the template, and then
    the URL in place of every [${url}] of the text so obtained. *)
Lemma formatUrl_no_pattern (template : jsstring) (result : UploadResult) :
  has_pattern (filename result) = false ->
  has_pattern (url result) = false ->
  formatUrl template result
  = substitute_all url_token (url result)
      (substitute_all fileName_token (filename result) template).
Proof.
  intros Hf Hu. unfold formatUrl, replace_global, substitute_all.
  now rewrite !replace_scan_no_pattern.
Qed.

(** C4. A file name holding [$$] is not put into the template as it is:
    for the default template and the file [cash$$.png] the formatter
    returns the text with [cash$.png], whereas replacing the token by the
    value gives [cash$$.png]. *)
Theorem formatUrl_dollar_in_filename :
  let result := {| filename := lit "cash$$.png";
                   url := lit "http://h/1.png" |} in
  formatUrl (lit "![${fileName}](${url})") result
  = lit "![cash$.png](http://h/1.png)"
  /\ substitute_all url_token (url result)
       (substitute_all fileName_token (filename result)
          (lit "![${fileName}](${url})"))
     = lit "![cash$$.png](http://h/1.png)"
  /\ formatUrl (lit "![${fileName}](${url})") result
     <> lit "![cash$$.png](http://h/1.png)".
Proof.
  split; [|split]; [reflexivity | reflexivity | discriminate].
Qed.

(** C10. The file name is substituted first, and a [${url}] it brings in
    is matched by the second replacement; but with the URL value [$&]
    that match is replaced by itself, so the returned text still holds
    [${url}] where the URL value was to be. *)
Theorem formatUrl_url_in_filename_kept :
  let result := {| filename := lit "${url}.png"; url := lit "$&" |} in
  replace_global fileName_token (filename result)
    (lit "![${fileName}](${url})")
  = lit "![${url}.png](${url})"
  /\ formatUrl (lit "![${fileName}](${url})") result
     = lit "![${url}.png](${url})"
  /\ formatUrl (lit "![${fileName}](${url})") result
     <> lit "![$&.png]($&)".
Proof.
  split; [|split]; [reflexivity | reflexivity | discriminate].
Qed.

(** * Properties of the clipboard acquisition *)

Section ClipboardHost.

Variable exec :
  command -> gmap (list N) N -> option thrown * gmap (list N) N.

Ltac run :=
  unfold try_catch, bind, ret, throw, stat, unlink, execAsync, log,
    unlinked; simpl.

Lemma unlink_world (path : jsstring) (w : world) :
  snd (unlink path w) = unlinked path w.
Proof.
  run. destruct (files w !! path) eqn:Hp; simpl; [reflexivity|].
  now rewrite delete_id.
Qed.

Lemma unlinked_absent (path : jsstring) (w : world) :
  files (unlinked path w) !! path = None.
Proof. apply lookup_delete_eq. Qed.

(** The [catch] block always throws, after one [unlink] of the temp
    path. *)
Lemma saveClipboardImage_catch_spec (outputPath : jsstring) (err : thrown)
  (w : world) :
  saveClipboardImage_catch outputPath err w
  = (Thrown (surfaced err), unlinked outputPath w).
Proof.
  unfold saveClipboardImage_catch.
  unfold try_catch at 1, bind.
  pose proof (unlink_world outputPath w) as Hw.
  destruct (unlink outputPath w) as [[[]|t] w1]; simpl in Hw; subst w1;
    unfold ret, throw, surfaced;
    destruct err as [[m|m c]|v]; reflexivity.
Qed.

(** [saveClipboardImage] in terms of what the extractor did. *)
Lemma saveClipboardImage_outcome (platform outputPath : jsstring)
  (w : world) :
  saveClipboardImage exec platform outputPath w
  = match extract exec platform outputPath w with
    | (Thrown t, w0) => (Thrown (surfaced t), unlinked outputPath w0)
    | (Returned _, w0) =>
        match files w0 !! outputPath with
        | None =>
            (Thrown (surfaced (ENOENT "stat" outputPath)),
             unlinked outputPath (log (SysStat outputPath) w0))
        | Some size =>
            if size =? 0 then
              (Thrown (ThrowError
                         (ClipboardError (lit "No image in clipboard")
                            None)),
               unlinked outputPath
                 (unlinked outputPath (log (SysStat outputPath) w0)))
            else (Returned outputPath, log (SysStat outputPath) w0)
        end
    end.
Proof.
  unfold saveClipboardImage, try_catch at 1, saveClipboardImage_try.
  unfold bind at 1.
  destruct (extract exec platform outputPath w) as [[[]|t] w0].
  - unfold bind at 1, stat.
    destruct (files w0 !! outputPath) as [size|] eqn:Hsize.
    + destruct (size =? 0) eqn:Hzero.
      * unfold bind, throw.
        pose proof (unlink_world outputPath
                      (log (SysStat outputPath) w0)) as Hw.
        destruct (unlink outputPath (log (SysStat outputPath) w0))
          as [[[]|t] w1] eqn:Hun; simpl in Hw; subst w1.
        -- now rewrite saveClipboardImage_catch_spec.
        -- exfalso. revert Hun. run. now rewrite Hsize.
      * reflexivity.
    + now rewrite saveClipboardImage_catch_spec.
  - now rewrite saveClipboardImage_catch_spec.
Qed.

(** Whatever an extractor throws is a [ClipboardError] with a message. *)
Lemma extract_throws (platform outputPath : jsstring) (w w0 : world)
  (t : thrown) :
  extract exec platform outputPath w = (Thrown t, w0) ->
  exists msg cause,
    t = ThrowError (ClipboardError msg cause) /\ Boolean msg = true.
Proof.
  unfold extract.
  destruct (eqb platform (lit "darwin"));
    [|destruct (eqb platform (lit "linux"));
      [|destruct (eqb platform (lit "win32"))]].
  - unfold saveClipboardImageDarwin. run.
    destruct (exec (PngPaste outputPath) (files w)) as [[t1|] fs1];
      simpl; [|discriminate].
    destruct (exec (OsaScript outputPath) fs1) as [[t2|] fs2];
      simpl; [|discriminate].
    intros [= <- _]. now eexists _, _.
  - unfold saveClipboardImageLinux. run.
    intros H.
    repeat match type of H with
           | context [exec ?c ?fs] =>
               destruct (exec c fs) as [[?|] ?]; simpl in H
           | context [@lookup _ _ _ _ ?k ?m] =>
               destruct (@lookup _ _ _ _ k m) as [?|] eqn:?; simpl in H
           | context [0 <? ?n] => destruct (0 <? n); simpl in H
           end;
      try discriminate;
      injection H as <- _; now eexists _, _.
  - unfold saveClipboardImageWindows. run.
    destruct (exec (PowerShell outputPath) (files w)) as [[t1|] fs1];
      simpl; [|discriminate].
    intros [= <- _]. now eexists _, _.
  - unfold throw. intros [= <- _]. now eexists _, _.
Qed.

(** C1. Whenever [saveClipboardImage] fails, the last thing it did
    before the error left it was an [unlink] of the generated temp
    path, and no file is left at that path. *)
Theorem saveClipboardImage_failure_cleans_up
  (platform outputPath : jsstring) (w w' : world) (t : thrown) :
  saveClipboardImage exec platform outputPath w = (Thrown t, w') ->
  (exists earlier, trace w' = earlier ++ [SysUnlink outputPath])
  /\ files w' !! outputPath = None.
Proof.
  rewrite saveClipboardImage_outcome. intros H.
  assert (exists w0, w' = unlinked outputPath w0) as [w0 ->].
  { destruct (extract exec platform outputPath w) as [[[]|t0] w0].
    - destruct (files w0 !! outputPath) as [size|].
      + destruct (size =? 0); [|discriminate].
        injection H as _ <-. now eexists.
      + injection H as _ <-. now eexists.
    - injection H as _ <-. now eexists. }
  split; [now eexists | apply unlinked_absent].
Qed.

(** C2. Whenever [saveClipboardImage] returns, it returns the generated
    temp path, and at that moment the file there has a size greater
    than zero. *)
Theorem saveClipboardImage_returns_nonempty
  (platform outputPath : jsstring) (w w' : world) (p : jsstring) :
  saveClipboardImage exec platform outputPath w = (Returned p, w') ->
  p = outputPath
  /\ exists size, files w' !! p = Some size /\ 0 < size.
Proof.
  rewrite saveClipboardImage_outcome. intros H.
  destruct (extract exec platform outputPath w) as [[[]|t0] w0];
    [|discriminate].
  destruct (files w0 !! outputPath) as [size|] eqn:Hsize; [|discriminate].
  destruct (size =? 0) eqn:Hzero; [discriminate|].
  injection H as <- <-. split; [reflexivity|].
  exists size. split; [exact Hsize|].
  apply N.eqb_neq in Hzero. lia.
Qed.

(** The re-check behind C2: an empty file left by an extractor that
    returned is deleted, and the acquisition fails with "No image in
    clipboard". *)
Lemma saveClipboardImage_rejects_empty
  (platform outputPath : jsstring) (w w0 : world) :
  extract exec platform outputPath w = (Returned tt, w0) ->
  files w0 !! outputPath = Some 0 ->
  exists w',
    saveClipboardImage exec platform outputPath w
    = (Thrown (ThrowError
                 (ClipboardError (lit "No image in clipboard") None)), w')
    /\ files w' !! outputPath = None.
Proof.
  intros Hex Hsize. rewrite saveClipboardImage_outcome, Hex, Hsize.
  simpl. eexists. split; [reflexivity|]. apply unlinked_absent.
Qed.

(** C8. Whatever [saveClipboardImage] throws is a [ClipboardError] with
    a non-empty message and an optional cause.  It comes from a value
    thrown in the [try] block: a [ClipboardError] is thrown on as it
    is, anything else becomes the cause (if it is an [Error]) of a new
    [ClipboardError]. *)
Theorem saveClipboardImage_throws_ClipboardError
  (platform outputPath : jsstring) (w w' : world) (t : thrown) :
  saveClipboardImage exec platform outputPath w = (Thrown t, w') ->
  (exists msg cause,
     t = ThrowError (ClipboardError msg cause) /\ Boolean msg = true)
  /\ exists t0 w0,
       saveClipboardImage_try exec platform outputPath w = (Thrown t0, w0)
       /\ match t0 with
          | ThrowError (ClipboardError _ _) => t = t0
          | _ =>
              t = ThrowError
                    (ClipboardError (lit "Failed to save clipboard image")
                       (as_Error t0))
          end.
Proof.
  intros H. split.
  - rewrite saveClipboardImage_outcome in H.
    destruct (extract exec platform outputPath w) as [[[]|t0] w0] eqn:Hex.
    + destruct (files w0 !! outputPath) as [size|].
      * destruct (size =? 0); [|discriminate].
        injection H as <- _. now eexists _, _.
      * injection H as <- _. now eexists _, _.
    + apply extract_throws in Hex as (msg & cause & -> & Hmsg).
      injection H as <- _. now exists msg, cause.
  - unfold saveClipboardImage, try_catch in H.
    destruct (saveClipboardImage_try exec platform outputPath w)
      as [[p|t0] w0]; [discriminate|].
    rewrite saveClipboardImage_catch_spec in H. injection H as <- _.
    exists t0, w0. split; [reflexivity|].
    now destruct t0 as [[m|m c]|v].
Qed.

(** C5, as the code has it.  An attempt of the Linux extractor
    succeeds when its command exits normally and the file then has a
    non-zero size.  The size is checked, and a zero-byte file deleted,
    only after a command that exited normally; a command that fails
    makes the attempt fail with no check and no deletion.  xsel is run
    only after xclip has failed, and the [ClipboardError] naming xclip
    is thrown exactly when both attempts have failed. *)
Theorem saveClipboardImageLinux_two_attempts (outputPath : jsstring)
  (w : world) :
  let xclip := XClip outputPath in
  let xsel := XSel outputPath in
  let fs1 := files_after_attempt exec xclip outputPath (files w) in
  let fs2 := files_after_attempt exec xsel outputPath fs1 in
  let calls1 := calls_of_attempt exec xclip outputPath (files w) in
  let calls2 := calls_of_attempt exec xsel outputPath fs1 in
  saveClipboardImageLinux exec outputPath w
  = if attempt_succeeds exec xclip outputPath (files w) then
      (Returned tt, {| files := fs1; trace := trace w ++ calls1 |})
    else if attempt_succeeds exec xsel outputPath fs1 then
      (Returned tt,
       {| files := fs2; trace := trace w ++ calls1 ++ calls2 |})
    else
      (Thrown
         (ThrowError
            (ClipboardError install_xclip None)),
       {| files := fs2; trace := trace w ++ calls1 ++ calls2 |}).
Proof.
  unfold saveClipboardImageLinux, attempt_succeeds, files_after_attempt,
    calls_of_attempt.
  run.
  destruct (exec (XClip outputPath) (files w)) as [[t1|] fs1]; simpl.
  2: destruct (fs1 !! outputPath) as [size1|] eqn:H1; simpl.
  2: destruct (0 <? size1) eqn:Hpos1; simpl;
       [now rewrite <- ?app_assoc|rewrite H1].
  all: simpl;
    match goal with
    | |- context [exec (XSel ?out) ?fs] =>
        destruct (exec (XSel out) fs) as [[t2|] fs2]; simpl;
        try (destruct (fs2 !! out) as [size2|] eqn:H2; simpl;
             [destruct (0 <? size2) eqn:Hpos2; simpl; rewrite ?H2|])
    end;
    rewrite <- ?app_assoc; reflexivity.
Qed.

End ClipboardHost.

(** C5, as the claim has it, fails when a command fails: with neither
    tool installed the extractor makes the two [exec] calls and no
    other, so the size is never checked, and it throws with the
    zero-byte file that the shell created still on disk. *)
Lemma saveClipboardImageLinux_failed_commands_unchecked :
  let out := Scenario.temp_path in
  let run :=
    saveClipboardImageLinux Scenario.exec_no_tools out Scenario.empty_disk in
  fst run
  = Thrown
      (ThrowError
         (ClipboardError install_xclip None))
  /\ trace (snd run) = [SysExec (XClip out); SysExec (XSel out)]
  /\ (SysStat out ∉ trace (snd run))
  /\ (SysUnlink out ∉ trace (snd run))
  /\ files (snd run) !! out = Some 0.
Proof.
  cbv zeta.
  assert (Htrace :
            trace (snd (saveClipboardImageLinux Scenario.exec_no_tools
                          Scenario.temp_path Scenario.empty_disk))
            = [SysExec (XClip Scenario.temp_path);
               SysExec (XSel Scenario.temp_path)])
    by (vm_compute; reflexivity).
  split; [vm_compute; reflexivity|].
  split; [exact Htrace|].
  rewrite Htrace.
  split; [|split].
  - intros H. repeat (apply elem_of_cons in H as [H|H]; [discriminate H|]).
    now apply elem_of_nil in H.
  - intros H. repeat (apply elem_of_cons in H as [H|H]; [discriminate H|]).
    now apply elem_of_nil in H.
  - vm_compute. reflexivity.
Qed.

Lemma saveClipboardImage_failure_cleans_up_witness :
  let run :=
    saveClipboardImage Scenario.exec_no_tools (lit "linux")
      Scenario.temp_path Scenario.empty_disk in
  fst run = Thrown (ThrowError (ClipboardError install_xclip None))
  /\ (exists earlier,
        trace (snd run) = earlier ++ [SysUnlink Scenario.temp_path])
  /\ files (snd run) !! Scenario.temp_path = None.
Proof.
  cbv zeta. split; [vm_compute; reflexivity|].
  apply (saveClipboardImage_failure_cleans_up Scenario.exec_no_tools
           (lit "linux") Scenario.temp_path Scenario.empty_disk _
           (ThrowError (ClipboardError install_xclip None))).
  vm_compute. reflexivity.
Defined.

Lemma saveClipboardImage_returns_nonempty_witness :
  let run :=
    saveClipboardImage Scenario.exec_xsel_works (lit "linux")
      Scenario.temp_path Scenario.empty_disk in
  fst run = Returned Scenario.temp_path
  /\ exists size,
       files (snd run) !! Scenario.temp_path = Some size /\ 0 < size.
Proof.
  cbv zeta. split; [vm_compute; reflexivity|].
  refine (proj2 (saveClipboardImage_returns_nonempty
                   Scenario.exec_xsel_works (lit "linux") Scenario.temp_path
                   Scenario.empty_disk _ Scenario.temp_path _)).
  vm_compute. reflexivity.
Defined.

Lemma saveClipboardImage_throws_ClipboardError_witness :
  let run :=
    saveClipboardImage Scenario.exec_silent (lit "darwin")
      Scenario.temp_path Scenario.empty_disk in
  let wrapped :=
    ThrowError
      (ClipboardError (lit "Failed to save clipboard image")
         (as_Error (ENOENT "stat" Scenario.temp_path))) in
  fst run = Thrown wrapped
  /\ exists msg cause,
       wrapped = ThrowError (ClipboardError msg cause)
       /\ Boolean msg = true.
Proof.
  cbv zeta. split; [vm_compute; reflexivity|].
  refine (proj1 (saveClipboardImage_throws_ClipboardError
                   Scenario.exec_silent (lit "darwin") Scenario.temp_path
                   Scenario.empty_disk
                   (snd (saveClipboardImage Scenario.exec_silent
                           (lit "darwin") Scenario.temp_path
                           Scenario.empty_disk))
                   _ _)).
  vm_compute. reflexivity.
Defined.

(** * Further properties of the clipboard side *)

Ltac run_clip :=
  unfold try_catch, bind, ret, throw, stat, unlink, execAsync, log,
    unlinked; simpl.

Lemma eqb_refl (a : jsstring) : eqb a a = true.
Proof. unfold eqb. now apply bool_decide_eq_true_2. Qed.

Lemma eqb_neq (a b : jsstring) : a <> b -> eqb a b = false.
Proof. unfold eqb. intros H. now apply bool_decide_eq_false_2. Qed.

(** Composing computations that keep a reflexive and transitive
    relation between the worlds. *)
Section Keeps.

Variable R : world -> world -> Prop.
Hypothesis R_refl : forall w, R w w.
Hypothesis R_trans : forall w1 w2 w3, R w1 w2 -> R w2 w3 -> R w1 w3.

Lemma keeps_ret {A} (a : A) : keeps R (ret a).
Proof. intros w. apply R_refl. Qed.

Lemma keeps_throw {A} (t : thrown) : keeps R (@throw A t).
Proof. intros w. apply R_refl. Qed.

Lemma keeps_bind {A B} (m : M A) (k : A -> M B) :
  keeps R m -> (forall a, keeps R (k a)) -> keeps R (bind m k).
Proof.
  intros Hm Hk w. unfold bind. specialize (Hm w).
  destruct (m w) as [[a|t] w1]; simpl in *; [|assumption].
  eapply R_trans; [eassumption|apply Hk].
Qed.

Lemma keeps_try_catch {A} (body : M A) (handler : thrown -> M A) :
  keeps R body -> (forall t, keeps R (handler t)) ->
  keeps R (try_catch body handler).
Proof.
  intros Hb Hh w. unfold try_catch. specialize (Hb w).
  destruct (body w) as [[a|t] w1]; simpl in *; [assumption|].
  eapply R_trans; [eassumption|apply Hh].
Qed.

Lemma keeps_if {A} (b : bool) (m1 m2 : M A) :
  keeps R m1 -> keeps R m2 -> keeps R (if b then m1 else m2).
Proof. now destruct b. Qed.

End Keeps.

Ltac keeps_steps :=
  repeat first
    [ assumption
    | apply keeps_ret; assumption
    | apply keeps_throw; assumption
    | apply keeps_if
    | apply keeps_bind; [assumption| |intros ?]
    | apply keeps_try_catch; [assumption| |intros ?]
    | match goal with
      | |- keeps _ (match ?x with _ => _ end) => destruct x
      end ].

Section ClipboardFurther.

Variable exec :
  command -> gmap (list N) N -> option thrown * gmap (list N) N.

Lemma cleanupTempFile_absent (filePath : jsstring) (w : world) :
  files (snd (cleanupTempFile filePath w)) !! filePath = None.
Proof.
  unfold cleanupTempFile. run_clip.
  destruct (files w !! filePath) as [size|] eqn:Hfile; simpl;
    [apply lookup_delete_eq|assumption].
Qed.

(** X1. [cleanupTempFile] never throws.  It makes one [unlink] call,
    after which there is no file at the path; every other file is as it
    was. *)
Theorem cleanupTempFile_removes (filePath : jsstring) (w : world) :
  fst (cleanupTempFile filePath w) = Returned tt
  /\ files (snd (cleanupTempFile filePath w)) !! filePath = None
  /\ (forall p,
        p <> filePath ->
        files (snd (cleanupTempFile filePath w)) !! p = files w !! p)
  /\ trace (snd (cleanupTempFile filePath w))
     = trace w ++ [SysUnlink filePath].
Proof.
  unfold cleanupTempFile. run_clip.
  destruct (files w !! filePath) as [size|] eqn:Hfile; simpl.
  - repeat split; [apply lookup_delete_eq|].
    intros p Hp. now apply lookup_delete_ne.
  - repeat split; assumption.
Qed.

(** The macOS extractor, read off the two commands. *)
Lemma saveClipboardImageDarwin_outcome (outputPath : jsstring)
  (w : world) :
  saveClipboardImageDarwin exec outputPath w
  = match exec (PngPaste outputPath) (files w) with
    | (None, fs1) =>
        (Returned tt,
         {| files := fs1;
            trace := trace w ++ [SysExec (PngPaste outputPath)] |})
    | (Some _, fs1) =>
        let w2 :=
          {| files := (exec (OsaScript outputPath) fs1).2;
             trace := trace w ++ [SysExec (PngPaste outputPath);
                                  SysExec (OsaScript outputPath)] |} in
        match (exec (OsaScript outputPath) fs1).1 with
        | None => (Returned tt, w2)
        | Some err =>
            (Thrown (ThrowError
                       (ClipboardError install_pngpaste (as_Error err))),
             w2)
        end
    end.
Proof.
  unfold saveClipboardImageDarwin. run_clip.
  destruct (exec (PngPaste outputPath) (files w)) as [[t1|] fs1]; simpl;
    [|reflexivity].
  destruct (exec (OsaScript outputPath) fs1) as [[t2|] fs2]; simpl;
    now rewrite <- app_assoc.
Qed.

(** The Windows extractor, read off its command. *)
Lemma saveClipboardImageWindows_outcome (outputPath : jsstring)
  (w : world) :
  let w1 :=
    {| files := (exec (PowerShell outputPath) (files w)).2;
       trace := trace w ++ [SysExec (PowerShell outputPath)] |} in
  saveClipboardImageWindows exec outputPath w
  = match (exec (PowerShell outputPath) (files w)).1 with
    | None => (Returned tt, w1)
    | Some err =>
        (Thrown (ThrowError
                   (ClipboardError (lit "No image in clipboard")
                      (as_Error err))),
         w1)
    end.
Proof.
  unfold saveClipboardImageWindows. run_clip.
  now destruct (exec (PowerShell outputPath) (files w)) as [[t1|] fs1].
Qed.

(** X4. On a platform other than darwin, linux and win32 no command is
    run: the acquisition makes the one [unlink] call of its cleanup (so
    a file that was at the temp path is gone) and throws the
    [ClipboardError] that names the platform. *)
Theorem saveClipboardImage_unsupported (platform outputPath : jsstring)
  (w : world) :
  platform <> lit "darwin" ->
  platform <> lit "linux" ->
  platform <> lit "win32" ->
  saveClipboardImage exec platform outputPath w
  = (Thrown (ThrowError
               (ClipboardError (lit "Unsupported platform: " ++ platform)
                  None)),
     unlinked outputPath w).
Proof.
  intros Hd Hl Hw. rewrite saveClipboardImage_outcome. unfold extract.
  now rewrite !eqb_neq by assumption.
Qed.

Lemma saveClipboardImageLinux_cases (outputPath : jsstring) (w : world) :
  match saveClipboardImageLinux exec outputPath w with
  | (Returned _, w1) =>
      exists size, files w1 !! outputPath = Some size /\ 0 < size
  | (Thrown t, _) => t = ThrowError (ClipboardError install_xclip None)
  end.
Proof.
  unfold saveClipboardImageLinux. run_clip.
  destruct (exec (XClip outputPath) (files w)) as [[t1|] fs1]; simpl.
  2: destruct (fs1 !! outputPath) as [size1|] eqn:H1; simpl.
  2: destruct (0 <? size1) eqn:Hpos1; simpl;
       [exists size1; split; [assumption|now apply N.ltb_lt]
       |rewrite H1].
  all: simpl;
    match goal with
    | |- context [exec (XSel ?out) ?fs] =>
        destruct (exec (XSel out) fs) as [[t2|] fs2]; simpl;
        try (destruct (fs2 !! out) as [size2|] eqn:H2; simpl;
             [destruct (0 <? size2) eqn:Hpos2; simpl; rewrite ?H2|])
    end;
    simpl; try reflexivity;
    eexists; split; [first [eassumption|reflexivity]|now apply N.ltb_lt].
Qed.

(** X5. On Linux the acquisition fails in one way only: whatever went
    wrong, it throws the [ClipboardError] that names xclip, with no
    cause. *)
Theorem saveClipboardImage_linux_error (outputPath : jsstring)
  (w w' : world) (t : thrown) :
  saveClipboardImage exec (lit "linux") outputPath w = (Thrown t, w') ->
  t = ThrowError (ClipboardError install_xclip None).
Proof.
  rewrite saveClipboardImage_outcome.
  change (extract exec (lit "linux") outputPath w)
    with (saveClipboardImageLinux exec outputPath w).
  pose proof (saveClipboardImageLinux_cases outputPath w) as Hlinux.
  destruct (saveClipboardImageLinux exec outputPath w) as [[[]|t0] w0].
  - destruct Hlinux as (size & -> & Hpos).
    destruct (size =? 0) eqn:Hzero; [|discriminate].
    apply N.eqb_eq in Hzero. lia.
  - subst t0. now intros [= <- _].
Qed.

(** X2. On macOS a failed acquisition throws one of three errors.  If
    pngpaste and osascript both failed: the [ClipboardError] that names
    pngpaste, its cause being the [Error] that osascript failed with
    (none if osascript failed with something else); what pngpaste failed
    with is dropped.  If the extractor returned and the file is empty:
    "No image in clipboard" without a cause.  If it returned and there
    is no file: "Failed to save clipboard image", caused by the failed
    [stat]. *)
Theorem saveClipboardImage_darwin_errors (outputPath : jsstring)
  (w w' : world) (t : thrown) :
  saveClipboardImage exec (lit "darwin") outputPath w = (Thrown t, w') ->
  (exists t1 fs1 t2 fs2,
     exec (PngPaste outputPath) (files w) = (Some t1, fs1)
     /\ exec (OsaScript outputPath) fs1 = (Some t2, fs2)
     /\ t = ThrowError
              (ClipboardError install_pngpaste
                 match t2 with
                 | ThrowError e => Some e
                 | ThrowValue _ => None
                 end))
  \/ (exists w0,
        saveClipboardImageDarwin exec outputPath w = (Returned tt, w0)
        /\ files w0 !! outputPath = Some 0
        /\ t = ThrowError
                 (ClipboardError (lit "No image in clipboard") None))
  \/ (exists w0,
        saveClipboardImageDarwin exec outputPath w = (Returned tt, w0)
        /\ files w0 !! outputPath = None
        /\ t = ThrowError
                 (ClipboardError (lit "Failed to save clipboard image")
                    (Some (PlainError
                             (lit "ENOENT: no such file or directory, stat '"
                                ++ outputPath ++ lit "'"))))).
Proof.
  rewrite saveClipboardImage_outcome.
  change (extract exec (lit "darwin") outputPath w)
    with (saveClipboardImageDarwin exec outputPath w).
  destruct (saveClipboardImageDarwin exec outputPath w) as [[[]|t0] w0]
    eqn:Hdarwin.
  - destruct (files w0 !! outputPath) as [size|] eqn:Hsize.
    + destruct (size =? 0) eqn:Hzero; [|discriminate].
      apply N.eqb_eq in Hzero as ->. intros [= <- _].
      right. left. now exists w0.
    + intros [= <- _]. right. right. now exists w0.
  - rewrite saveClipboardImageDarwin_outcome in Hdarwin.
    destruct (exec (PngPaste outputPath) (files w)) as [[t1|] fs1];
      [|discriminate].
    destruct (exec (OsaScript outputPath) fs1) as [[t2|] fs2] eqn:Hosa;
      simpl in Hdarwin; [|discriminate].
    injection Hdarwin as <- _. intros [= <- _].
    left. exists t1, fs1, t2, fs2. now destruct t2.
Qed.

(** X3. On Windows a failed acquisition throws one of three errors.  If
    the PowerShell command failed: "No image in clipboard", its cause
    being the [Error] the command failed with (none if it failed with
    something else).  If the command exited normally and the file is
    empty: the same message without a cause.  If it exited normally and
    there is no file: "Failed to save clipboard image", caused by the
    failed [stat]. *)
Theorem saveClipboardImage_win32_errors (outputPath : jsstring)
  (w w' : world) (t : thrown) :
  saveClipboardImage exec (lit "win32") outputPath w = (Thrown t, w') ->
  (exists t1 fs1,
     exec (PowerShell outputPath) (files w) = (Some t1, fs1)
     /\ t = ThrowError
              (ClipboardError (lit "No image in clipboard")
                 match t1 with
                 | ThrowError e => Some e
                 | ThrowValue _ => None
                 end))
  \/ (exists fs1,
        exec (PowerShell outputPath) (files w) = (None, fs1)
        /\ fs1 !! outputPath = Some 0
        /\ t = ThrowError
                 (ClipboardError (lit "No image in clipboard") None))
  \/ (exists fs1,
        exec (PowerShell outputPath) (files w) = (None, fs1)
        /\ fs1 !! outputPath = None
        /\ t = ThrowError
                 (ClipboardError (lit "Failed to save clipboard image")
                    (Some (PlainError
                             (lit "ENOENT: no such file or directory, stat '"
                                ++ outputPath ++ lit "'"))))).
Proof.
  rewrite saveClipboardImage_outcome.
  change (extract exec (lit "win32") outputPath w)
    with (saveClipboardImageWindows exec outputPath w).
  rewrite saveClipboardImageWindows_outcome. cbv zeta.
  destruct (exec (PowerShell outputPath) (files w)) as [[t1|] fs1]; simpl.
  - intros [= <- _]. left. exists t1, fs1. now destruct t1.
  - destruct (fs1 !! outputPath) as [size|] eqn:Hsize.
    + destruct (size =? 0) eqn:Hzero; [|discriminate].
      apply N.eqb_eq in Hzero as ->. intros [= <- _].
      right. left. now exists fs1.
    + intros [= <- _]. right. right. now exists fs1.
Qed.

(** X6. The acquisition returns exactly when the extractor returns and
    the file at the temp path then has a size other than zero; it
    returns that path, having done nothing after the extractor but
    one [stat] call. *)
Theorem saveClipboardImage_returns_iff (platform outputPath p : jsstring)
  (w w' : world) :
  saveClipboardImage exec platform outputPath w = (Returned p, w')
  <-> exists w0 size,
        extract exec platform outputPath w = (Returned tt, w0)
        /\ files w0 !! outputPath = Some size
        /\ 0 < size
        /\ p = outputPath
        /\ w' = log (SysStat outputPath) w0.
Proof.
  rewrite saveClipboardImage_outcome. split.
  - destruct (extract exec platform outputPath w) as [[[]|t0] w0];
      [|discriminate].
    destruct (files w0 !! outputPath) as [size|] eqn:Hsize; [|discriminate].
    destruct (size =? 0) eqn:Hzero; [discriminate|].
    intros [= <- <-]. exists w0, size.
    apply N.eqb_neq in Hzero. repeat split; try assumption. lia.
  - intros (w0 & size & -> & -> & Hpos & -> & ->).
    destruct (size =? 0) eqn:Hzero; [|reflexivity].
    apply N.eqb_eq in Hzero. lia.
Qed.

Lemma only_calls_on_refl (path : jsstring) (w : world) :
  only_calls_on path w w.
Proof. exists []. now rewrite app_nil_r. Qed.

Lemma only_calls_on_trans (path : jsstring) (w1 w2 w3 : world) :
  only_calls_on path w1 w2 -> only_calls_on path w2 w3 ->
  only_calls_on path w1 w3.
Proof.
  intros (a1 & H1 & Ha1) (a2 & H2 & Ha2). exists (a1 ++ a2).
  split; [now rewrite H2, H1, app_assoc|now apply Forall_app].
Qed.

Lemma only_calls_on_one (path : jsstring) (c : syscall) (w w' : world) :
  concerns path c = true -> trace w' = trace w ++ [c] ->
  only_calls_on path w w'.
Proof. intros Hc Ht. exists [c]. split; [assumption|now constructor]. Qed.

Lemma stat_calls (path : jsstring) :
  keeps (only_calls_on path) (stat path).
Proof.
  intros w. apply only_calls_on_one with (SysStat path);
    [apply eqb_refl|].
  unfold stat. now destruct (files w !! path).
Qed.

Lemma unlink_calls (path : jsstring) :
  keeps (only_calls_on path) (unlink path).
Proof.
  intros w. apply only_calls_on_one with (SysUnlink path);
    [apply eqb_refl|].
  unfold unlink. now destruct (files w !! path).
Qed.

Lemma execAsync_calls (path : jsstring) (cmd : command) :
  concerns path (SysExec cmd) = true ->
  keeps (only_calls_on path) (execAsync exec cmd).
Proof.
  intros Hc w. apply only_calls_on_one with (SysExec cmd); [assumption|].
  unfold execAsync.
  now destruct (exec cmd (files w)) as [[t|] fs].
Qed.

(** X7. Whatever the platform and whatever the tools do, every call the
    acquisition makes is about the temp path: it runs commands that
    write to it, and it never stats or unlinks another path. *)
Theorem saveClipboardImage_calls (platform outputPath : jsstring)
  (w : world) :
  exists added,
    trace (snd (saveClipboardImage exec platform outputPath w))
    = trace w ++ added
    /\ Forall (fun c => concerns outputPath c = true) added.
Proof.
  revert w. change (keeps (only_calls_on outputPath)
                      (saveClipboardImage exec platform outputPath)).
  pose proof (only_calls_on_refl outputPath) as Hrefl.
  pose proof (only_calls_on_trans outputPath) as Htrans.
  pose proof (stat_calls outputPath) as Hstat.
  pose proof (unlink_calls outputPath) as Hunlink.
  assert (Hexec : forall cmd,
             concerns outputPath (SysExec cmd) = true ->
             keeps (only_calls_on outputPath) (execAsync exec cmd))
    by (intros; now apply execAsync_calls).
  unfold saveClipboardImage, saveClipboardImage_try,
    saveClipboardImage_catch, extract, saveClipboardImageDarwin,
    saveClipboardImageLinux, saveClipboardImageWindows.
  keeps_steps; apply Hexec; apply eqb_refl.
Qed.

Lemma same_elsewhere_refl (path : jsstring) (w : world) :
  same_elsewhere path w w.
Proof. now intros p Hp. Qed.

Lemma same_elsewhere_trans (path : jsstring) (w1 w2 w3 : world) :
  same_elsewhere path w1 w2 -> same_elsewhere path w2 w3 ->
  same_elsewhere path w1 w3.
Proof. intros H1 H2 p Hp. now rewrite H2, H1. Qed.

Lemma stat_elsewhere (path : jsstring) :
  keeps (same_elsewhere path) (stat path).
Proof. intros w p Hp. unfold stat. now destruct (files w !! path). Qed.

Lemma unlink_elsewhere (path : jsstring) :
  keeps (same_elsewhere path) (unlink path).
Proof.
  intros w p Hp. unfold unlink.
  destruct (files w !! path); simpl; [|reflexivity].
  now apply lookup_delete_ne.
Qed.

(** X8. If the commands that write to the temp path leave every other
    file as it is, so does the acquisition: apart from the temp path it
    creates, changes and deletes nothing. *)
Theorem saveClipboardImage_elsewhere (platform outputPath : jsstring)
  (w : world) :
  (forall cmd fs p,
     concerns outputPath (SysExec cmd) = true ->
     p <> outputPath -> (exec cmd fs).2 !! p = fs !! p) ->
  forall p,
    p <> outputPath ->
    files (snd (saveClipboardImage exec platform outputPath w)) !! p
    = files w !! p.
Proof.
  intros Htools. revert w.
  change (keeps (same_elsewhere outputPath)
            (saveClipboardImage exec platform outputPath)).
  pose proof (same_elsewhere_refl outputPath) as Hrefl.
  pose proof (same_elsewhere_trans outputPath) as Htrans.
  pose proof (stat_elsewhere outputPath) as Hstat.
  pose proof (unlink_elsewhere outputPath) as Hunlink.
  assert (Hexec : forall cmd,
             concerns outputPath (SysExec cmd) = true ->
             keeps (same_elsewhere outputPath) (execAsync exec cmd)).
  { intros cmd Hcmd w p Hp. unfold execAsync.
    specialize (Htools cmd (files w) p Hcmd Hp).
    now destruct (exec cmd (files w)) as [[t|] fs]. }
  unfold saveClipboardImage, saveClipboardImage_try,
    saveClipboardImage_catch, extract, saveClipboardImageDarwin,
    saveClipboardImageLinux, saveClipboardImageWindows.
  keeps_steps; apply Hexec; apply eqb_refl.
Qed.

End ClipboardFurther.

(** * Further properties of the upload side *)

Lemma code_nonzero_false (code : option Z) :
  code_nonzero code = false <-> code = Some 0%Z.
Proof.
  destruct code as [n|]; simpl; [|easy].
  rewrite negb_false_iff, Z.eqb_eq. split; congruence.
Qed.

Lemma split_no_separator (sep : N) (s : jsstring) :
  Forall (fun piece => sep ∉ piece) (split sep s).
Proof.
  induction s as [|c s IH]; simpl.
  - constructor; [apply not_elem_of_nil|constructor].
  - destruct (c =? sep) eqn:Hc.
    + constructor; [apply not_elem_of_nil|assumption].
    + apply N.eqb_neq in Hc.
      destruct (split sep s) as [|piece pieces]; simpl.
      * constructor; [|constructor].
        intros [->|H]%elem_of_cons; [congruence|].
        now apply not_elem_of_nil in H.
      * inversion IH as [|? ? Hpiece Hpieces]; subst.
        constructor; [|assumption].
        intros [->|H]%elem_of_cons; [congruence|contradiction].
Qed.

Lemma split_line (sep : N) (u s : jsstring) :
  sep ∉ u -> split sep (u ++ sep :: s) = u :: split sep s.
Proof.
  induction u as [|c u IH]; intros Hu; simpl.
  - now rewrite N.eqb_refl.
  - apply not_elem_of_cons in Hu as [Hc Hu].
    rewrite (proj2 (N.eqb_neq c sep)) by congruence.
    now rewrite IH.
Qed.

Lemma split_last_line (sep : N) (u : jsstring) :
  sep ∉ u -> split sep u = [u].
Proof.
  induction u as [|c u IH]; intros Hu; simpl; [reflexivity|].
  apply not_elem_of_cons in Hu as [Hc Hu].
  rewrite (proj2 (N.eqb_neq c sep)) by congruence.
  now rewrite IH.
Qed.

Lemma split_join (sep : N) (lines : list jsstring) :
  lines <> [] ->
  Forall (fun u => sep ∉ u) lines ->
  split sep (join [sep] lines) = lines.
Proof.
  induction lines as [|u lines IH]; intros Hne Hall; [congruence|].
  inversion Hall as [|? ? Hu Hrest]; subst.
  destruct lines as [|v lines].
  - simpl. now apply split_last_line.
  - change (join [sep] (u :: v :: lines))
      with (u ++ sep :: join [sep] (v :: lines)).
    rewrite split_line by assumption.
    f_equal. now apply IH.
Qed.

Lemma trim_start_kept (c : N) (s : jsstring) :
  is_trim_space c = false -> trim_start (c :: s) = c :: s.
Proof. intros H. simpl. now rewrite H. Qed.

Lemma trim_end_space (s : jsstring) (c : N) :
  is_trim_space c = true -> trim_end (s ++ [c]) = trim_end s.
Proof.
  intros Hc. unfold trim_end. rewrite rev_unit. simpl. now rewrite Hc.
Qed.

Lemma no_newline (u : jsstring) :
  Forall (fun c => is_trim_space c = false) u -> newline ∉ u.
Proof.
  intros Hu Hin. rewrite Forall_forall in Hu.
  specialize (Hu _ Hin). discriminate.
Qed.

Lemma filter_nonempty (urls : list jsstring) :
  Forall (fun u => u <> [] /\ Forall (fun c => is_trim_space c = false) u)
    urls ->
  List.filter Boolean urls = urls.
Proof.
  induction 1 as [|u urls [Hu _] _ IH]; [reflexivity|].
  simpl. rewrite IH. now destruct u.
Qed.

Lemma rev_starts (u : jsstring) :
  u <> [] -> Forall (fun c => is_trim_space c = false) u ->
  exists c s, rev u = c :: s /\ is_trim_space c = false.
Proof.
  intros Hne Hu. destruct (rev u) as [|c s] eqn:Hrev.
  - apply (f_equal (@rev N)) in Hrev. rewrite rev_involutive in Hrev.
    contradiction.
  - exists c, s. split; [reflexivity|].
    rewrite Forall_forall in Hu. apply Hu.
    apply list_elem_of_In, in_rev. rewrite Hrev. now left.
Qed.

(** Lines without white space, joined: the text starts and ends with a
    unit that [trim] keeps. *)
Lemma join_ends (urls : list jsstring) :
  urls <> [] ->
  Forall (fun u => u <> [] /\ Forall (fun c => is_trim_space c = false) u)
    urls ->
  (exists c s, join [newline] urls = c :: s /\ is_trim_space c = false)
  /\ (exists c s,
        rev (join [newline] urls) = c :: s /\ is_trim_space c = false).
Proof.
  induction urls as [|u urls IH]; intros Hne Hall; [congruence|].
  inversion Hall as [|? ? [Hu Hclean] Hrest]; subst.
  destruct urls as [|v urls].
  - simpl. split; [|now apply rev_starts].
    destruct u as [|c u]; [congruence|].
    exists c, u. split; [reflexivity|]. now inversion Hclean.
  - change (join [newline] (u :: v :: urls))
      with (u ++ newline :: join [newline] (v :: urls)).
    split.
    + destruct u as [|c u]; [congruence|].
      eexists c, _. split; [reflexivity|]. now inversion Hclean.
    + destruct IH as [_ (c & s & Hj & Hc)]; [congruence|assumption|].
      rewrite rev_app_distr.
      change (rev (newline :: join [newline] (v :: urls)))
        with (rev (join [newline] (v :: urls)) ++ [newline]).
      rewrite Hj. eexists c, _. split; [reflexivity|assumption].
Qed.

Lemma trim_join (urls : list jsstring) :
  urls <> [] ->
  Forall (fun u => u <> [] /\ Forall (fun c => is_trim_space c = false) u)
    urls ->
  trim (join [newline] urls) = join [newline] urls.
Proof.
  intros Hne Hall.
  destruct (join_ends urls Hne Hall) as [(c & s & Hj & Hc) (d & r & Hr & Hd)].
  unfold trim. rewrite Hj, trim_start_kept by assumption. rewrite <- Hj.
  unfold trim_end. rewrite Hr, trim_start_kept by assumption.
  now rewrite <- Hr, rev_involutive.
Qed.

Section UploadFurther.

Variable basename : jsstring -> jsstring.

(** X12. No URL read from the output is empty, and none holds a line
    feed. *)
Theorem parse_urls_lines (out : jsstring) :
  Forall (fun u => u <> [] /\ newline ∉ u) (parse_urls out).
Proof.
  unfold parse_urls. apply Forall_forall. intros u Hu.
  apply list_elem_of_In, filter_In in Hu as [Hin Hne].
  split; [now destruct u|].
  pose proof (split_no_separator newline (trim out)) as Hsep.
  rewrite Forall_forall in Hsep. apply Hsep.
  now apply list_elem_of_In.
Qed.

Lemma parse_urls_join (urls : list jsstring) :
  Forall (fun u => u <> [] /\ Forall (fun c => is_trim_space c = false) u)
    urls ->
  parse_urls (join [newline] urls) = urls.
Proof.
  intros Hclean. unfold parse_urls.
  destruct (decide (urls = [])) as [->|Hne]; [reflexivity|].
  rewrite trim_join by assumption.
  rewrite split_join; [now apply filter_nonempty| assumption |].
  eapply Forall_impl; [exact Hclean|]. intros u [_ Hu]. now apply no_newline.
Qed.

Lemma parse_urls_join_newline (urls : list jsstring) :
  Forall (fun u => u <> [] /\ Forall (fun c => is_trim_space c = false) u)
    urls ->
  parse_urls (join [newline] urls ++ [newline]) = urls.
Proof.
  intros Hclean. rewrite <- (parse_urls_join urls Hclean) at 2.
  unfold parse_urls. f_equal. f_equal.
  destruct (decide (urls = [])) as [->|Hne]; [reflexivity|].
  rewrite trim_join by assumption.
  destruct (join_ends urls Hne Hclean) as [(c & s & Hj & Hc) _].
  unfold trim. rewrite Hj. simpl app. rewrite trim_start_kept by assumption.
  rewrite <- Hj. change (c :: s ++ [newline]) with ((c :: s) ++ [newline]).
  rewrite <- Hj, trim_end_space by reflexivity.
  pose proof (trim_join urls Hne Hclean) as Ht. unfold trim in Ht.
  rewrite Hj, trim_start_kept in Ht by assumption. now rewrite <- Hj in Ht.
Qed.

(** X13. Lines that are not empty and hold no white space are read back
    as they were printed, one URL per line, whether or not the last one
    ends with a line feed. *)
Theorem parse_urls_round_trip (urls : list jsstring) :
  Forall (fun u => u <> [] /\ Forall (fun c => is_trim_space c = false) u)
    urls ->
  parse_urls (join [newline] urls ++ [newline]) = urls
  /\ parse_urls (join [newline] urls) = urls.
Proof.
  intros Hclean. split;
    [now apply parse_urls_join_newline | now apply parse_urls_join].
Qed.

Lemma make_results_zip (paths urls : list jsstring) :
  Forall (fun u => u <> []) urls ->
  length urls = length paths ->
  make_results basename paths urls
  = zip_with (fun p u => {| filename := basename p; url := u |}) paths urls.
Proof.
  intros Hne Hlen. apply list_eq; intros i.
  rewrite make_results_lookup, lookup_zip_with.
  destruct (paths !! i) as [p|] eqn:Hp; simpl; [|reflexivity].
  destruct (urls !! i) as [u|] eqn:Hu; simpl.
  - rewrite Forall_forall in Hne.
    assert (u <> []) by (apply Hne; eapply list_elem_of_lookup_2; eauto).
    unfold or_else. now destruct u.
  - apply lookup_lt_Some in Hp. apply lookup_ge_None_1 in Hu. lia.
Qed.

(** X11. What the handlers settle the promise to depends only on the
    texts that [data.toString()] gave for the chunks of each stream
    before the first [close] or [error] event, put end to end, and on
    that event: the order in which chunks of the two streams alternate
    and whatever happens after that event change nothing.  (Every chunk
    is decoded on its own, so nothing is said about a chunk that ends
    inside a character of several bytes.) *)
Theorem run_events_chunking (paths : list jsstring)
  (pre pre' post post' : list proc_event) (ev : proc_event) :
  forallb is_data pre = true ->
  forallb is_data pre' = true ->
  is_data ev = false ->
  stdout_of pre = stdout_of pre' ->
  stderr_of pre = stderr_of pre' ->
  settled (run_events basename paths (pre ++ ev :: post))
  = settled (run_events basename paths (pre' ++ ev :: post')).
Proof.
  intros Hpre Hpre' Hev Hout Herr.
  rewrite !run_first_settling by assumption. now rewrite Hout, Herr.
Qed.

Variable spawn : jsstring -> list jsstring -> spawn_result.



Lemma uploadImages_fulfilled (cfg : Config) (paths : list jsstring)
  (results : list UploadResult) :
  uploadImages basename spawn cfg paths = Fulfilled results ->
  exists pre post,
    spawn (binaryPath cfg) (upload_args cfg paths)
      = Spawned (pre ++ Close (Some 0%Z) :: post)
    /\ forallb is_data pre = true
    /\ results = make_results basename paths (parse_urls (stdout_of pre)).
Proof.
  unfold uploadImages. intros Hful.
  destruct (spawn (binaryPath cfg) (upload_args cfg paths))
    as [thrown|events]; [discriminate|].
  destruct (first_settling_event events)
    as [Hdata | (pre & ev & post & Hrun & Hpre & Hev)].
  - rewrite run_only_data in Hful by assumption. discriminate.
  - rewrite Hrun, run_first_settling in Hful by assumption.
    exists pre, post.
    destruct ev as [| |code|err]; try discriminate; simpl in Hful.
    unfold on_close in Hful. simpl in Hful.
    destruct (code_nonzero code) eqn:Hcode; [discriminate|].
    apply code_nonzero_false in Hcode as ->.
    injection Hful as <-. now rewrite Hrun.
Qed.

(** X10. [uploadImages] resolves exactly when the first [close] or
    [error] event of the child is a [close] with exit code 0, and then
    with the results read from the standard output up to that event. *)
Theorem uploadImages_fulfilled_iff (cfg : Config) (paths : list jsstring)
  (results : list UploadResult) :
  uploadImages basename spawn cfg paths = Fulfilled results
  <-> exists pre post,
        spawn (binaryPath cfg) (upload_args cfg paths)
          = Spawned (pre ++ Close (Some 0%Z) :: post)
        /\ forallb is_data pre = true
        /\ results
           = make_results basename paths (parse_urls (stdout_of pre)).
Proof.
  split; [apply uploadImages_fulfilled|].
  intros (pre & post & Hrun & Hpre & ->).
  now apply uploadImages_exit_0 with post.
Qed.

(** X14. When the tool prints one line for each input, each line being
    not empty and free of white space, and exits with code 0, the
    results pair the base name of every input with the line of the same
    index. *)
Theorem uploadImages_one_url_per_line (cfg : Config)
  (paths urls : list jsstring) (pre post : list proc_event) :
  spawn (binaryPath cfg) (upload_args cfg paths)
    = Spawned (pre ++ Close (Some 0%Z) :: post) ->
  forallb is_data pre = true ->
  stdout_of pre = join [newline] urls ++ [newline] ->
  Forall (fun u => u <> [] /\ Forall (fun c => is_trim_space c = false) u)
    urls ->
  length urls = length paths ->
  uploadImages basename spawn cfg paths
  = Fulfilled
      (zip_with (fun p u => {| filename := basename p; url := u |})
         paths urls).
Proof.
  intros Hrun Hpre Hout Hclean Hlen.
  rewrite (uploadImages_exit_0 _ _ _ _ _ _ Hrun Hpre), Hout.
  rewrite parse_urls_join_newline by assumption.
  rewrite make_results_zip; [reflexivity| |assumption].
  eapply Forall_impl; [exact Hclean|]. now intros u [Hu _].
Qed.

(** X17. [handleUpload] inserts text only if there is an active editor
    and the upload resolved; the text is never empty: it is the
    formatted results that have a URL, one per line, in the order of
    the results. *)
Theorem handleUpload_insert (cfg : Config) (activeTextEditor : bool)
  (paths : list jsstring) (shown : list ui_event) (text : jsstring) :
  handleUpload basename spawn cfg activeTextEditor paths = Some shown ->
  EditorInsert text ∈ shown ->
  text <> []
  /\ activeTextEditor = true
  /\ exists results,
       uploadImages basename spawn cfg paths = Fulfilled results
       /\ text
          = join [newline]
              (map (formatUrl (urlTemplate cfg))
                 (List.filter (fun r => Boolean (url r)) results)).
Proof.
  unfold handleUpload.
  destruct (uploadImages basename spawn cfg paths) as [|results|reason];
    [discriminate| |].
  - destruct (Boolean _) eqn:Htext; intros [= <-] Hin.
    + destruct activeTextEditor; simpl in Hin.
      * apply elem_of_cons in Hin as [[= ->]|Hin].
        -- repeat split; [now intros Hnil; rewrite Hnil in Htext|].
           now exists results.
        -- apply elem_of_cons in Hin as [Hin|Hin]; [discriminate|].
           now apply elem_of_nil in Hin.
      * repeat (apply elem_of_cons in Hin as [Hin|Hin]; [discriminate|]).
        now apply elem_of_nil in Hin.
    + apply elem_of_cons in Hin as [Hin|Hin]; [discriminate|].
      now apply elem_of_nil in Hin.
  - intros [= <-] Hin.
    repeat (apply elem_of_cons in Hin as [Hin|Hin]; [discriminate|]).
    now apply elem_of_nil in Hin.
Qed.

(** X18. Without an active editor [handleUpload] ends in one of three
    ways: the warning that no URLs came back; the warning that there is
    no editor, followed by the log line "Uploaded N image(s)" with N the
    number of inputs, though nothing was inserted; or the error of a
    failed upload, logged and shown. *)
Theorem handleUpload_no_editor (cfg : Config) (paths : list jsstring)
  (shown : list ui_event) :
  handleUpload basename spawn cfg false paths = Some shown ->
  shown = [ShowWarningMessage (lit "No URLs returned from upload")]
  \/ shown
     = [ShowWarningMessage (lit "No active text editor");
        LoggerInfo (lit "Uploaded " ++ show_Z (Z.of_nat (length paths))
                      ++ lit " image(s)")]
  \/ exists reason,
       uploadImages basename spawn cfg paths = Rejected reason
       /\ shown
          = [LoggerError (lit "Upload failed: " ++ message reason);
             ShowErrorMessage (lit "Upload failed: " ++ message reason)].
Proof.
  unfold handleUpload.
  destruct (uploadImages basename spawn cfg paths) as [|results|reason]
    eqn:Hup; [discriminate| |].
  - apply uploadImages_fulfilled in Hup as (pre & post & _ & _ & Hres).
    assert (Hlen : length results = length paths)
      by (rewrite Hres; apply make_results_length).
    destruct (Boolean _); intros [= <-]; [right; left|now left].
    simpl. now rewrite Hlen.
  - intros [= <-]. right. right. now exists reason.
Qed.


End UploadFurther.

(** * Further properties of the result formatter *)

Lemma replace_scan_absent (tok value : jsstring) :
  forall s scanned,
    occurs tok s = false -> replace_scan tok value scanned O s = s.
Proof.
  induction s as [|c s IH]; intros scanned Hocc; [reflexivity|].
  simpl in Hocc. apply orb_false_elim in Hocc as [Hhere Hlater].
  change (replace_scan tok value scanned 0 (c :: s))
    with (if starts_with tok (c :: s) then
            GetSubstitution tok scanned (drop (length tok) (c :: s)) value
              ++ replace_scan tok value (scanned ++ [c]) (length tok - 1) s
          else c :: replace_scan tok value (scanned ++ [c]) O s).
  rewrite Hhere. now rewrite IH.
Qed.

(** X15. A template in which neither [${fileName}] nor [${url}] is
    found is returned as it is, whatever the file name and the URL. *)
Theorem formatUrl_no_token (template : jsstring) (result : UploadResult) :
  occurs fileName_token template = false ->
  occurs url_token template = false ->
  formatUrl template result = template.
Proof.
  intros Hf Hu. unfold formatUrl, replace_global.
  now rewrite (replace_scan_absent fileName_token), replace_scan_absent.
Qed.

Lemma no_dollar_no_pattern (s : jsstring) :
  dollar ∉ s -> has_pattern s = false.
Proof.
  induction s as [|c s IH]; intros Hs; [reflexivity|].
  apply not_elem_of_cons in Hs as [Hc Hs].
  simpl. rewrite (proj2 (N.eqb_neq c dollar)) by congruence.
  now apply IH.
Qed.

(** Text without a dollar sign is passed over when looking for a token
    that starts with one. *)
Lemma substitute_scan_plain (tok value plain rest : jsstring) :
  dollar ∉ plain ->
  substitute_scan (dollar :: tok) value O (plain ++ rest)
  = plain ++ substitute_scan (dollar :: tok) value O rest.
Proof.
  induction plain as [|c plain IH]; intros Hplain; [reflexivity|].
  apply not_elem_of_cons in Hplain as [Hc Hplain].
  change (substitute_scan (dollar :: tok) value 0 ((c :: plain) ++ rest))
    with (if (dollar =? c) && starts_with tok (plain ++ rest) then
            value ++ substitute_scan (dollar :: tok) value
                       (length (dollar :: tok) - 1) (plain ++ rest)
          else c :: substitute_scan (dollar :: tok) value O
                      (plain ++ rest)).
  rewrite (proj2 (N.eqb_neq dollar c)) by congruence.
  simpl. now rewrite IH.
Qed.

Lemma formatUrl_markdown (name address : jsstring) :
  dollar ∉ name ->
  has_pattern address = false ->
  formatUrl (lit "![${fileName}](${url})")
    {| filename := name; url := address |}
  = markdown_image name address.
Proof.
  intros Hname Haddress.
  unfold formatUrl, replace_global. simpl filename. simpl url.
  rewrite !replace_scan_no_pattern by auto using no_dollar_no_pattern.
  change (substitute_scan fileName_token name 0
            (lit "![${fileName}](${url})"))
    with (lit "![" ++ name ++ lit "](${url})").
  change (lit "![" ++ name ++ lit "](${url})")
    with (lit "![" ++ (name ++ lit "](${url})")).
  change url_token with (dollar :: lit "{url}").
  rewrite (substitute_scan_plain _ _ (lit "![")).
  - rewrite substitute_scan_plain by assumption.
    unfold markdown_image. now do 2 f_equal.
  - vm_compute. intros H.
    repeat (apply elem_of_cons in H as [H|H]; [discriminate|]).
    now apply elem_of_nil in H.
Qed.

(** X16. With the template left at its default, a file name without a
    dollar sign and a URL without replacement patterns are formatted as
    the Markdown image [![name](url)]. *)
Theorem formatUrl_default_template (settings : gmap (list N) (list N))
  (result : UploadResult) :
  settings !! lit "urlTemplate" = None ->
  dollar ∉ filename result ->
  has_pattern (url result) = false ->
  formatUrl (urlTemplate (getConfig settings)) result
  = markdown_image (filename result) (url result).
Proof.
  intros Hdefault Hname Haddress. unfold getConfig. simpl urlTemplate.
  rewrite Hdefault. destruct result as [name address].
  now apply formatUrl_markdown.
Qed.

(** * From the output of the tool to the text in the editor *)

Section EndToEnd.

Variable basename : jsstring -> jsstring.
Variable spawn : jsstring -> list jsstring -> spawn_result.

Lemma format_results (paths urls : list jsstring) :
  Forall (fun u => u <> [] /\ has_pattern u = false) urls ->
  Forall (fun p => dollar ∉ basename p) paths ->
  map (formatUrl (lit "![${fileName}](${url})"))
    (List.filter (fun r => Boolean (url r))
       (zip_with (fun p u => {| filename := basename p; url := u |})
          paths urls))
  = zip_with (fun p u => markdown_image (basename p) u) paths urls.
Proof.
  intros Hurls Hpaths. revert urls Hurls.
  induction Hpaths as [|p paths Hp _ IH]; intros urls Hurls;
    [reflexivity|].
  destruct Hurls as [|u urls [Hu Hpat] Hurls]; [reflexivity|].
  simpl. destruct u as [|c u]; [congruence|]. simpl.
  now rewrite IH, formatUrl_markdown.
Qed.

Lemma join_markdown_nonempty (paths urls : list jsstring) :
  paths <> [] ->
  length urls = length paths ->
  Boolean
    (join [newline]
       (zip_with (fun p u => markdown_image (basename p) u) paths urls))
  = true.
Proof.
  intros Hne Hlen.
  destruct paths as [|p paths]; [congruence|].
  destruct urls as [|u urls]; [discriminate|].
  simpl. now destruct (zip_with _ paths urls).
Qed.

(** X20. With the default settings and an active editor: if the tool,
    run as [pic-od upload <paths>], prints one URL for each of the (one
    or more) inputs, each on a line of its own, and exits with code 0,
    then the Markdown images [![name](url)], one per line and in input
    order, are inserted in one piece, and "Uploaded N image(s)" is
    logged.  The URLs are taken to be free of white space and of
    replacement patterns, the base names free of dollar signs. *)
Theorem handleUpload_inserts_markdown (paths urls : list jsstring)
  (pre post : list proc_event) :
  spawn (lit "pic-od") (lit "upload" :: paths)
    = Spawned (pre ++ Close (Some 0%Z) :: post) ->
  forallb is_data pre = true ->
  stdout_of pre = join [newline] urls ++ [newline] ->
  Forall (fun u => u <> [] /\ Forall (fun c => is_trim_space c = false) u)
    urls ->
  Forall (fun u => has_pattern u = false) urls ->
  Forall (fun p => dollar ∉ basename p) paths ->
  paths <> [] ->
  length urls = length paths ->
  handleUpload basename spawn (getConfig ∅) true paths
  = Some [EditorInsert
            (join [newline]
               (zip_with (fun p u => markdown_image (basename p) u)
                  paths urls));
          LoggerInfo (lit "Uploaded " ++ show_Z (Z.of_nat (length paths))
                        ++ lit " image(s)")].
Proof.
  intros Hrun Hpre Hout Hclean Hpat Hnames Hne Hlen.
  unfold handleUpload.
  rewrite (uploadImages_exit_0 basename spawn (getConfig ∅) paths pre post)
    by assumption.
  rewrite Hout, parse_urls_join_newline by assumption.
  rewrite make_results_zip; [|now eapply Forall_impl; [exact Hclean|];
                               intros u [Hu _] | assumption].
  change (urlTemplate (getConfig ∅)) with (lit "![${fileName}](${url})").
  rewrite format_results; [|rewrite Forall_forall in *; split;
                            [now apply Hclean|now apply Hpat]
                           |assumption].
  rewrite join_markdown_nonempty by assumption.
  rewrite length_zip_with, Hlen, Nat.min_id. reflexivity.
Qed.

End EndToEnd.

(** * Properties of the clipboard command *)

Section ClipboardCommand.

Variable basename : jsstring -> jsstring.
Variable spawn : jsstring -> list jsstring -> spawn_result.
Variable exec :
  command -> gmap (list N) N -> option thrown * gmap (list N) N.
Variable during_upload : gmap (list N) N -> gmap (list N) N.

Lemma saveClipboardImage_ends (platform outputPath : jsstring) (w : world) :
  match saveClipboardImage exec platform outputPath w with
  | (Returned p, _) => p = outputPath
  | (Thrown t, w1) =>
      files w1 !! outputPath = None
      /\ exists msg cause, t = ThrowError (ClipboardError msg cause)
  end.
Proof.
  rewrite saveClipboardImage_outcome.
  destruct (extract exec platform outputPath w) as [[[]|t0] w0] eqn:Hex.
  - destruct (files w0 !! outputPath) as [size|].
    + destruct (size =? 0); [|reflexivity].
      split; [apply unlinked_absent|now eexists _, _].
    + split; [apply unlinked_absent|now eexists _, _].
  - apply extract_throws in Hex as (msg & cause & -> & _).
    split; [apply unlinked_absent|now eexists _, _].
Qed.

(** X21. When the clipboard command has run to its end, no file is left
    at the temp path: not after a failed acquisition, not after a failed
    upload, and not after a successful one, whatever the tools did to
    the files.  (The generated path is never the empty string.) *)
Theorem uploadFromClipboard_no_temp_file (platform outputPath : jsstring)
  (cfg : Config) (activeTextEditor : bool) (w w' : world)
  (shown : list ui_event) :
  outputPath <> [] ->
  Extension.uploadFromClipboard basename spawn exec during_upload
    platform outputPath cfg activeTextEditor w = (Some shown, w') ->
  files w' !! outputPath = None.
Proof.
  intros Hpath. unfold Extension.uploadFromClipboard.
  pose proof (saveClipboardImage_ends platform outputPath w) as Hends.
  destruct (saveClipboardImage exec platform outputPath w)
    as [[p|t] w1].
  - subst p.
    destruct (handleUpload basename spawn cfg activeTextEditor [outputPath]);
      [|discriminate].
    intros [= _ <-]. destruct outputPath as [|c path]; [congruence|].
    simpl. apply cleanupTempFile_absent.
  - destruct Hends as [Habsent _]. now intros [= _ <-].
Qed.

(** X22. When the acquisition fails, the command shows the message of
    the [ClipboardError] as it is, never behind "Failed to read
    clipboard: "; it starts no upload and shows, inserts and logs
    nothing else. *)
Theorem uploadFromClipboard_acquisition_error
  (platform outputPath : jsstring) (cfg : Config) (activeTextEditor : bool)
  (w w1 : world) (t : thrown) :
  saveClipboardImage exec platform outputPath w = (Thrown t, w1) ->
  exists msg cause,
    t = ThrowError (ClipboardError msg cause)
    /\ Extension.uploadFromClipboard basename spawn exec during_upload
         platform outputPath cfg activeTextEditor w
       = (Some [ShowErrorMessage msg], w1).
Proof.
  intros Hfail. unfold Extension.uploadFromClipboard.
  pose proof (saveClipboardImage_ends platform outputPath w) as Hends.
  rewrite Hfail in *. destruct Hends as [_ (msg & cause & ->)].
  now exists msg, cause.
Qed.

End ClipboardCommand.

(** * The statements above, run on concrete hosts *)

Ltac clean_lines :=
  repeat (constructor; [split; [discriminate|repeat constructor]|]);
  constructor.

Lemma absent (c : N) (s : jsstring) : bool_decide (c ∈ s) = false -> c ∉ s.
Proof. intros H Hin. now apply bool_decide_eq_false_1 in H. Qed.

Lemma saveClipboardImage_unsupported_witness :
  saveClipboardImage Scenario.exec_silent (lit "freebsd")
    Scenario.temp_path Scenario.disk_with_note
  = (Thrown (ThrowError
               (ClipboardError (lit "Unsupported platform: freebsd") None)),
     unlinked Scenario.temp_path Scenario.disk_with_note).
Proof.
  apply (saveClipboardImage_unsupported Scenario.exec_silent
           (lit "freebsd")); discriminate.
Defined.

Lemma saveClipboardImage_linux_error_witness :
  let run :=
    saveClipboardImage Scenario.exec_silent (lit "linux")
      Scenario.temp_path Scenario.empty_disk in
  exists t,
    fst run = Thrown t
    /\ t = ThrowError (ClipboardError install_xclip None).
Proof.
  cbv zeta. eexists. split; [vm_compute; reflexivity|].
  apply (saveClipboardImage_linux_error Scenario.exec_silent
           Scenario.temp_path Scenario.empty_disk
           (snd (saveClipboardImage Scenario.exec_silent (lit "linux")
                   Scenario.temp_path Scenario.empty_disk))).
  vm_compute. reflexivity.
Defined.

Lemma saveClipboardImage_returns_iff_witness :
  exists w0 size,
    extract Scenario.exec_xsel_works (lit "linux") Scenario.temp_path
      Scenario.empty_disk = (Returned tt, w0)
    /\ files w0 !! Scenario.temp_path = Some size
    /\ 0 < size.
Proof.
  destruct (proj1 (saveClipboardImage_returns_iff Scenario.exec_xsel_works
                     (lit "linux") Scenario.temp_path Scenario.temp_path
                     Scenario.empty_disk
                     (snd (saveClipboardImage Scenario.exec_xsel_works
                             (lit "linux") Scenario.temp_path
                             Scenario.empty_disk))))
    as (w0 & size & Hex & Hsize & Hpos & _).
  - vm_compute. reflexivity.
  - now exists w0, size.
Defined.

Lemma saveClipboardImage_elsewhere_witness :
  files (snd (saveClipboardImage Scenario.exec_xsel_works (lit "linux")
                Scenario.temp_path Scenario.disk_with_note))
    !! lit "/home/u/note.txt" = Some 7.
Proof.
  rewrite (saveClipboardImage_elsewhere Scenario.exec_xsel_works
             (lit "linux") Scenario.temp_path Scenario.disk_with_note).
  - reflexivity.
  - intros cmd fs p Hcmd Hp.
    destruct cmd as [q|q|q|q|q]; simpl in *; try reflexivity;
      apply bool_decide_eq_true_1 in Hcmd; subst q;
      now apply lookup_insert_ne.
  - discriminate.
Defined.

Lemma run_events_chunking_witness :
  settled (run_events posix_basename Scenario.two_paths
             (Scenario.output_whole ++ [Close (Some 0%Z)]))
  = settled (run_events posix_basename Scenario.two_paths
               (Scenario.output_chunked
                  ++ [Close (Some 0%Z); Close (Some 1%Z)])).
Proof.
  apply (run_events_chunking posix_basename Scenario.two_paths
           Scenario.output_whole Scenario.output_chunked
           [] [Close (Some 1%Z)] (Close (Some 0%Z)));
    reflexivity.
Defined.


Lemma uploadImages_fulfilled_iff_witness :
  uploadImages posix_basename Scenario.spawn_two_urls Scenario.config
    Scenario.two_paths
  = Fulfilled [ {| filename := lit "a.png"; url := lit "http://a/1.png" |};
                {| filename := lit "b.png"; url := lit "http://a/2.png" |} ].
Proof.
  apply (uploadImages_fulfilled_iff posix_basename Scenario.spawn_two_urls).
  exists [StdoutData (lit "http://a/1.png" ++ [newline]
                        ++ lit "http://a/2.png" ++ [newline])], [].
  repeat split; reflexivity.
Defined.

Lemma parse_urls_round_trip_witness :
  parse_urls (join [newline] Scenario.two_urls ++ [newline])
  = Scenario.two_urls
  /\ parse_urls (join [newline] Scenario.two_urls) = Scenario.two_urls.
Proof.
  apply (parse_urls_round_trip Scenario.two_urls). clean_lines.
Defined.

Lemma uploadImages_one_url_per_line_witness :
  uploadImages posix_basename Scenario.spawn_two_urls Scenario.config
    Scenario.two_paths
  = Fulfilled
      (zip_with (fun p u => {| filename := posix_basename p; url := u |})
         Scenario.two_paths Scenario.two_urls).
Proof.
  apply (uploadImages_one_url_per_line posix_basename
           Scenario.spawn_two_urls Scenario.config Scenario.two_paths
           Scenario.two_urls
           [StdoutData (lit "http://a/1.png" ++ [newline]
                          ++ lit "http://a/2.png" ++ [newline])] []);
    try reflexivity.
  clean_lines.
Defined.

Lemma formatUrl_no_token_witness :
  formatUrl (lit "see {url} and $fileName")
    {| filename := lit "a.png"; url := lit "http://a/1.png" |}
  = lit "see {url} and $fileName".
Proof. apply formatUrl_no_token; reflexivity. Defined.

Lemma formatUrl_default_template_witness :
  formatUrl (urlTemplate (getConfig ∅))
    {| filename := lit "a.png"; url := lit "http://a/?x=$1" |}
  = lit "![a.png](http://a/?x=$1)".
Proof.
  apply (formatUrl_default_template ∅
           {| filename := lit "a.png"; url := lit "http://a/?x=$1" |}).
  - reflexivity.
  - now apply absent.
  - reflexivity.
Defined.

Lemma handleUpload_insert_witness :
  let text :=
    lit "![a.png](http://a/1.png)" ++ [newline]
      ++ lit "![b.png](http://a/2.png)" in
  let shown := [EditorInsert text; LoggerInfo (lit "Uploaded 2 image(s)")] in
  handleUpload posix_basename Scenario.spawn_two_urls Scenario.config true
    Scenario.two_paths = Some shown
  /\ text <> [].
Proof.
  cbv zeta. split; [vm_compute; reflexivity|].
  refine (proj1 (handleUpload_insert posix_basename Scenario.spawn_two_urls
                   Scenario.config true Scenario.two_paths
                   [EditorInsert
                      (lit "![a.png](http://a/1.png)" ++ [newline]
                         ++ lit "![b.png](http://a/2.png)");
                    LoggerInfo (lit "Uploaded 2 image(s)")]
                   (lit "![a.png](http://a/1.png)" ++ [newline]
                      ++ lit "![b.png](http://a/2.png)") _ _)).
  - vm_compute. reflexivity.
  - apply list_elem_of_here.
Defined.

Lemma handleUpload_no_editor_witness :
  let shown :=
    [ShowWarningMessage (lit "No active text editor");
     LoggerInfo (lit "Uploaded 2 image(s)")] in
  handleUpload posix_basename Scenario.spawn_two_urls Scenario.config false
    Scenario.two_paths = Some shown
  /\ (shown = [ShowWarningMessage (lit "No URLs returned from upload")]
      \/ shown
         = [ShowWarningMessage (lit "No active text editor");
            LoggerInfo
              (lit "Uploaded "
                 ++ show_Z (Z.of_nat (length Scenario.two_paths))
                 ++ lit " image(s)")]
      \/ exists reason,
           uploadImages posix_basename Scenario.spawn_two_urls
             Scenario.config Scenario.two_paths = Rejected reason
           /\ shown
              = [LoggerError (lit "Upload failed: " ++ message reason);
                 ShowErrorMessage
                   (lit "Upload failed: " ++ message reason)]).
Proof.
  cbv zeta. split; [reflexivity|].
  apply (handleUpload_no_editor posix_basename Scenario.spawn_two_urls
           Scenario.config Scenario.two_paths).
  reflexivity.
Defined.


Lemma handleUpload_inserts_markdown_witness :
  handleUpload posix_basename Scenario.spawn_two_urls (getConfig ∅) true
    Scenario.two_paths
  = Some [EditorInsert
            (lit "![a.png](http://a/1.png)" ++ [newline]
               ++ lit "![b.png](http://a/2.png)");
          LoggerInfo (lit "Uploaded 2 image(s)")].
Proof.
  apply (handleUpload_inserts_markdown posix_basename
           Scenario.spawn_two_urls Scenario.two_paths Scenario.two_urls
           [StdoutData (lit "http://a/1.png" ++ [newline]
                          ++ lit "http://a/2.png" ++ [newline])] []);
    try reflexivity.
  - clean_lines.
  - repeat constructor.
  - repeat (constructor; [now apply absent|]). constructor.
  - discriminate.
Defined.

Lemma uploadFromClipboard_no_temp_file_witness :
  files (snd (Extension.uploadFromClipboard posix_basename
                Scenario.spawn_one_line Scenario.exec_xsel_works
                Scenario.untouched (lit "linux") Scenario.temp_path
                Scenario.config true Scenario.empty_disk))
    !! Scenario.temp_path = None.
Proof.
  refine (uploadFromClipboard_no_temp_file posix_basename
            Scenario.spawn_one_line Scenario.exec_xsel_works
            Scenario.untouched (lit "linux") Scenario.temp_path
            Scenario.config true Scenario.empty_disk _
            [EditorInsert (lit "![clipboard-1730000000000-k3x9qa.png](http://h/a.png)");
             LoggerInfo (lit "Uploaded 1 image(s)")] _ _).
  - discriminate.
  - vm_compute. reflexivity.
Defined.

Lemma uploadFromClipboard_acquisition_error_witness :
  exists msg cause,
    ThrowError (ClipboardError install_xclip None)
    = ThrowError (ClipboardError msg cause)
    /\ Extension.uploadFromClipboard posix_basename
         Scenario.spawn_one_line Scenario.exec_no_tools Scenario.untouched
         (lit "linux") Scenario.temp_path Scenario.config true
         Scenario.empty_disk
       = (Some [ShowErrorMessage msg],
          snd (saveClipboardImage Scenario.exec_no_tools (lit "linux")
                 Scenario.temp_path Scenario.empty_disk)).
Proof.
  apply (uploadFromClipboard_acquisition_error posix_basename
           Scenario.spawn_one_line Scenario.exec_no_tools
           Scenario.untouched (lit "linux") Scenario.temp_path
           Scenario.config true Scenario.empty_disk).
  vm_compute. reflexivity.
Defined.

(** * Blank lines and carriage returns in the output of the tool *)

Lemma join_cons (sep x : jsstring) (l : list jsstring) :
  l <> [] -> join sep (x :: l) = x ++ sep ++ join sep l.
Proof. now destruct l. Qed.

Lemma rev_join_last (sep final : jsstring) (init : list jsstring) :
  exists r, rev (join sep (init ++ [final])) = rev final ++ r.
Proof.
  induction init as [|x init [r IH]].
  - exists []. simpl. now rewrite app_nil_r.
  - change ((x :: init) ++ [final]) with (x :: (init ++ [final])).
    rewrite join_cons by (now destruct init).
    rewrite !rev_app_distr, IH.
    eexists. now rewrite <- !app_assoc.
Qed.

Lemma trim_end_kept (s : jsstring) (d : N) (r : jsstring) :
  rev s = d :: r -> is_trim_space d = false -> trim_end s = s.
Proof.
  intros Hr Hd. unfold trim_end.
  rewrite Hr, trim_start_kept by assumption.
  now rewrite <- Hr, rev_involutive.
Qed.

Lemma trim_kept (s : jsstring) (c d : N) (s' r : jsstring) :
  s = c :: s' -> is_trim_space c = false ->
  rev s = d :: r -> is_trim_space d = false ->
  trim s = s.
Proof.
  intros Hs Hc Hr Hd. unfold trim.
  rewrite Hs, trim_start_kept by assumption. rewrite <- Hs.
  unfold trim_end. rewrite Hr, trim_start_kept by assumption.
  now rewrite <- Hr, rev_involutive.
Qed.

(** A text of lines that starts and ends with a line that has something
    in it and no white space is left as it is by [trim]. *)
Lemma trim_lines (first final : jsstring) (middle : list jsstring) :
  first <> [] -> Forall (fun c => is_trim_space c = false) first ->
  final <> [] -> Forall (fun c => is_trim_space c = false) final ->
  trim (join [newline] (first :: middle ++ [final]))
  = join [newline] (first :: middle ++ [final]).
Proof.
  intros Hfirst Hfirst' Hfinal Hfinal'.
  destruct first as [|c first]; [congruence|].
  destruct (rev_starts final Hfinal Hfinal') as (d & r & Hrev & Hd).
  destruct (rev_join_last [newline] final (((c :: first)) :: middle))
    as [r' Hr].
  eapply trim_kept with (c := c) (d := d).
  - rewrite join_cons by (now destruct middle). reflexivity.
  - now inversion Hfirst'.
  - change (((c :: first) :: middle) ++ [final])
      with ((c :: first) :: middle ++ [final]) in Hr.
    rewrite Hr, Hrev. reflexivity.
  - assumption.
Qed.

(** X23. Blank lines between the first and the last line of the output
    are dropped and do not keep a place: the URLs after them move up.
    (Lines are taken to hold no white space, the first and the last one
    to be not empty.) *)
Theorem parse_urls_blank_lines (first final : jsstring)
  (middle : list jsstring) :
  first <> [] ->
  final <> [] ->
  Forall (Forall (fun c => is_trim_space c = false))
    (first :: middle ++ [final]) ->
  parse_urls (join [newline] (first :: middle ++ [final]))
  = first :: List.filter Boolean middle ++ [final].
Proof.
  intros Hfirst Hfinal Hall. unfold parse_urls.
  inversion Hall as [|? ? Hfirst' Hrest]; subst.
  apply Forall_app in Hrest as [Hmiddle Hfinal'].
  inversion Hfinal' as [|? ? Hfinal'' _]; subst.
  rewrite trim_lines by assumption.
  rewrite split_join; [| discriminate |].
  - destruct first as [|c first]; [congruence|]. simpl.
    rewrite List.filter_app. simpl.
    now destruct final as [|d final]; [congruence|].
  - eapply Forall_impl; [exact Hall|]. intros u Hu. now apply no_newline.
Qed.

Lemma concat_crlf (urls : list jsstring) (final : jsstring) :
  concat (map (fun u => u ++ [13; 10]) (urls ++ [final]))
  = join [newline] (map (fun u => u ++ [13]) urls ++ [final]) ++ [13; 10].
Proof.
  induction urls as [|u urls IH].
  - simpl. now rewrite app_nil_r.
  - rewrite <- app_comm_cons, !map_cons, concat_cons, IH,
      <- app_comm_cons.
    rewrite join_cons by (now destruct (map _ urls)).
    now rewrite <- !app_assoc.
Qed.

(** X24. Lines that end with a carriage return and a line feed are cut
    at the line feed only: every URL but the last one keeps the carriage
    return at its end.  (URLs are taken to be not empty and to hold no
    white space.) *)
Theorem parse_urls_crlf (urls : list jsstring) (final : jsstring) :
  Forall (fun u => u <> [] /\ Forall (fun c => is_trim_space c = false) u)
    (urls ++ [final]) ->
  parse_urls (concat (map (fun u => u ++ [13; 10]) (urls ++ [final])))
  = map (fun u => u ++ [13]) urls ++ [final].
Proof.
  intros Hall. apply Forall_app in Hall as [Hurls Hfinal].
  inversion Hfinal as [|? ? [Hne Hclean] _]; subst.
  rewrite concat_crlf. unfold parse_urls.
  set (lines := map (fun u => u ++ [13]) urls ++ [final]).
  assert (Htrim : trim (join [newline] lines ++ [13; 10])
                  = join [newline] lines).
  { destruct (rev_starts final Hne Hclean) as (d & r & Hrev & Hd).
    destruct (rev_join_last [newline] final
                (map (fun u => u ++ [13]) urls)) as [r' Hr].
    fold lines in Hr.
    assert (Hstart : exists c s,
               join [newline] lines = c :: s /\ is_trim_space c = false).
    { subst lines. destruct urls as [|u urls].
      - simpl. destruct final as [|c final]; [congruence|].
        exists c, final. split; [reflexivity|]. now inversion Hclean.
      - inversion Hurls as [|? ? [Hu Hu'] _]; subst.
        destruct u as [|c u]; [congruence|].
        rewrite map_cons, <- app_comm_cons.
        rewrite join_cons by (now destruct (map _ urls)).
        eexists c, _. split; [reflexivity|]. now inversion Hu'. }
    destruct Hstart as (c & s & Hj & Hc).
    unfold trim. rewrite Hj. simpl app.
    rewrite trim_start_kept by assumption.
    change (c :: s ++ [13; 10]) with ((c :: s) ++ [13; 10]).
    rewrite <- Hj.
    replace (join [newline] lines ++ [13; 10])
      with ((join [newline] lines ++ [13]) ++ [10])
      by now rewrite <- app_assoc.
    rewrite !trim_end_space by reflexivity.
    apply trim_end_kept with d (r ++ r'); [|assumption].
    now rewrite Hr, Hrev. }
  rewrite Htrim, split_join.
  - subst lines. rewrite List.filter_app. simpl.
    destruct final as [|d final]; [congruence|]. simpl. f_equal.
    clear. induction urls as [|u urls IH]; [reflexivity|].
    simpl. rewrite IH. now destruct u.
  - subst lines. now destruct (map _ urls).
  - subst lines. apply Forall_app. split.
    + apply Forall_forall. intros line Hline.
      apply list_elem_of_fmap in Hline as (u & -> & Hu).
      rewrite Forall_forall in Hurls. destruct (Hurls u Hu) as [_ Hcl].
      intros Hin. apply elem_of_app in Hin as [Hin|Hin].
      * now apply (no_newline u Hcl).
      * apply elem_of_cons in Hin as [Hin|Hin]; [discriminate|].
        now apply elem_of_nil in Hin.
    + constructor; [now apply no_newline|constructor].
Qed.

Lemma parse_urls_blank_lines_witness :
  parse_urls (lit "u1" ++ [newline; newline] ++ lit "u3")
  = [lit "u1"; lit "u3"].
Proof.
  apply (parse_urls_blank_lines (lit "u1") (lit "u3") [[]]);
    [discriminate | discriminate | repeat constructor].
Defined.

Lemma parse_urls_crlf_witness :
  parse_urls (lit "u1" ++ [13; 10] ++ lit "u2" ++ [13; 10])
  = [lit "u1" ++ [13]; lit "u2"].
Proof.
  apply (parse_urls_crlf [lit "u1"] (lit "u2")). clean_lines.
Defined.

Lemma formatUrl_no_pattern_witness :
  formatUrl (lit "[${fileName}]: ${url} (${fileName})")
    {| filename := lit "a $1.png"; url := lit "http://a/${fileName}" |}
  = lit "[a $1.png]: http://a/${fileName} (a $1.png)".
Proof.
  rewrite formatUrl_no_pattern; reflexivity.
Defined.

Lemma saveClipboardImage_darwin_errors_witness :
  let exec := Scenario.exec_no_tools in
  let out := Scenario.temp_path in
  let w := Scenario.empty_disk in
  let t :=
    ThrowError
      (ClipboardError install_pngpaste
         (Some (PlainError (lit "Command failed with exit code 127")))) in
  fst (saveClipboardImage exec (lit "darwin") out w) = Thrown t
  /\ ((exists t1 fs1 t2 fs2,
         exec (PngPaste out) (files w) = (Some t1, fs1)
         /\ exec (OsaScript out) fs1 = (Some t2, fs2)
         /\ t = ThrowError
                  (ClipboardError install_pngpaste
                     match t2 with
                     | ThrowError e => Some e
                     | ThrowValue _ => None
                     end))
      \/ (exists w0,
            saveClipboardImageDarwin exec out w = (Returned tt, w0)
            /\ files w0 !! out = Some 0
            /\ t = ThrowError
                     (ClipboardError (lit "No image in clipboard") None))
      \/ (exists w0,
            saveClipboardImageDarwin exec out w = (Returned tt, w0)
            /\ files w0 !! out = None
            /\ t = ThrowError
                     (ClipboardError (lit "Failed to save clipboard image")
                        (Some (PlainError
                                 (lit "ENOENT: no such file or directory, stat '"
                                    ++ out ++ lit "'")))))).
Proof.
  cbv zeta. split; [vm_compute; reflexivity|].
  apply (saveClipboardImage_darwin_errors Scenario.exec_no_tools
           Scenario.temp_path Scenario.empty_disk
           (snd (saveClipboardImage Scenario.exec_no_tools (lit "darwin")
                   Scenario.temp_path Scenario.empty_disk))).
  vm_compute. reflexivity.
Defined.

Lemma saveClipboardImage_win32_errors_witness :
  let exec := Scenario.exec_silent in
  let out := Scenario.temp_path in
  let w := Scenario.empty_disk in
  let t :=
    ThrowError
      (ClipboardError (lit "Failed to save clipboard image")
         (Some (PlainError
                  (lit "ENOENT: no such file or directory, stat '/tmp/clipboard-1730000000000-k3x9qa.png'")))) in
  fst (saveClipboardImage exec (lit "win32") out w) = Thrown t
  /\ ((exists t1 fs1,
         exec (PowerShell out) (files w) = (Some t1, fs1)
         /\ t = ThrowError
                  (ClipboardError (lit "No image in clipboard")
                     match t1 with
                     | ThrowError e => Some e
                     | ThrowValue _ => None
                     end))
      \/ (exists fs1,
            exec (PowerShell out) (files w) = (None, fs1)
            /\ fs1 !! out = Some 0
            /\ t = ThrowError
                     (ClipboardError (lit "No image in clipboard") None))
      \/ (exists fs1,
            exec (PowerShell out) (files w) = (None, fs1)
            /\ fs1 !! out = None
            /\ t = ThrowError
                     (ClipboardError (lit "Failed to save clipboard image")
                        (Some (PlainError
                                 (lit "ENOENT: no such file or directory, stat '"
                                    ++ out ++ lit "'")))))).
Proof.
  cbv zeta. split; [vm_compute; reflexivity|].
  apply (saveClipboardImage_win32_errors Scenario.exec_silent
           Scenario.temp_path Scenario.empty_disk
           (snd (saveClipboardImage Scenario.exec_silent (lit "win32")
                   Scenario.temp_path Scenario.empty_disk))).
  vm_compute. reflexivity.
Defined.
